(** * QuantCanvas dashboard: valuation, calendar and strategy logic

    A shallow embedding of the derived-value logic of the three dashboard
    components (PortfolioTracker, EconomicCalendar, StrategyBuilder) and the
    properties of it that the specification relies on.

    - JavaScript numbers are IEEE-754 binary64 values: [PrimFloat.float].
      The arithmetic of PortfolioTracker is written once over an interface
      of the four operations, instantiated at binary64 (what runs) and at
      the rationals (the exact reading of the same expressions).
    - JavaScript strings are sequences of UTF-16 code units: [list N].
    - React state is an explicit record; an event handler is a function
      from state to state. [Date.now()] is an input of the handler. *)

From Stdlib Require Import ZArith NArith QArith Floats Ascii String.
From Stdlib Require Import DecimalString DecimalPos DecimalN Lia.
From stdpp Require Import base decidable list.

Close Scope Q_scope.
Set Warnings "-inexact-float".

(** ** JavaScript strings *)

Module JS.

Abbreviation jsstring := (list N).

(** An ASCII literal as its code units. *)
Definition js (s : string) : jsstring :=
  List.map N_of_ascii (list_ascii_of_string s).

(** ECMAScript WhiteSpace and LineTerminator code points, the characters
    [String.prototype.trim] removes. All of them lie in the BMP, so the
    test is per code unit. *)
Definition isWhiteSpace (c : N) : bool :=
  match c with
  | 9 | 10 | 11 | 12 | 13 | 32 | 160 | 5760
  | 8232 | 8233 | 8239 | 8287 | 12288 | 65279 => true
  | _ => (8192 <=? c) && (c <=? 8202)
  end%N.

Fixpoint trimStart (s : jsstring) : jsstring :=
  match s with
  | [] => []
  | c :: s' => if isWhiteSpace c then trimStart s' else s
  end.

Definition trimEnd (s : jsstring) : jsstring :=
  rev (trimStart (rev s)).

Definition trim (s : jsstring) : jsstring :=
  trimEnd (trimStart s).

(** [!s] on a string: only the empty string is falsy. *)
Definition not_ (s : jsstring) : bool :=
  match s with [] => true | _ :: _ => false end.

(** [n.toString()] for a non-negative integer [n]. *)
Definition toString (n : N) : jsstring :=
  js (NilZero.string_of_uint (N.to_uint n)).

(** [s.charAt(pos)]: the code unit at [pos] as a string, or the empty string
    when [pos] is out of range. *)
Definition charAt (s : jsstring) (pos : nat) : jsstring :=
  match nth_error s pos with
  | Some c => [c]
  | None => []
  end.

(** The loop of [Math.min]: a NaN argument gives NaN, [-0] is below [+0],
    and otherwise the smaller number is kept. *)
Fixpoint min_loop (lowest : float) (coerced : list float) : float :=
  match coerced with
  | [] => lowest
  | number :: rest =>
      if is_nan number then nan
      else if PrimFloat.Leibniz.eqb number (-0)%float && PrimFloat.Leibniz.eqb lowest 0%float
           then min_loop (-0)%float rest
      else if (number <? lowest)%float then min_loop number rest
      else min_loop lowest rest
  end.

(** [Math.min(...args)], starting from [+Infinity]. *)
Definition Math_min (args : list float) : float :=
  min_loop infinity args.

End JS.

Import JS.

(** ** Numbers *)

(** The operations the portfolio arithmetic uses; [of_Z] reads the integer
    literals of the source, [0] and [100]. *)
Class Arith (num : Type) := {
  add : num -> num -> num;
  sub : num -> num -> num;
  mul : num -> num -> num;
  div : num -> num -> num;
  of_Z : Z -> num
}.

Declare Scope num_scope.
Delimit Scope num_scope with num.
Infix "+" := add : num_scope.
Infix "-" := sub : num_scope.
Infix "*" := mul : num_scope.
Infix "/" := div : num_scope.

(** binary64, the JavaScript number type *)
#[export] Instance float_Arith : Arith float := {
  add := PrimFloat.add;
  sub := PrimFloat.sub;
  mul := PrimFloat.mul;
  div := PrimFloat.div;
  of_Z := fun z =>
    if (z <? 0)%Z then PrimFloat.opp (PrimFloat.of_uint63 (Uint63.of_Z (- z)))
    else PrimFloat.of_uint63 (Uint63.of_Z z)
}.

(** exact rational arithmetic *)
#[export] Instance Q_Arith : Arith Q := {
  add := Qplus;
  sub := Qminus;
  mul := Qmult;
  div := Qdiv;
  of_Z := inject_Z
}.

(** The values a binary64 division by zero can have. *)
Definition nonfinite (x : float) : Prop :=
  x = nan \/ x = infinity \/ x = neg_infinity.

(** ** PortfolioTracker *)

Module PortfolioTracker.

Inductive HoldingType := stock | crypto | etf | commodity.

Record Holding (num : Type) := {
  id : jsstring;
  symbol : jsstring;
  name : jsstring;
  type : HoldingType;
  quantity : num;
  currentPrice : num;
  averageCost : num;
  change : num
}.
Arguments id {num} _.
Arguments symbol {num} _.
Arguments name {num} _.
Arguments type {num} _.
Arguments quantity {num} _.
Arguments currentPrice {num} _.
Arguments averageCost {num} _.
Arguments change {num} _.

Record State (num : Type) := {
  portfolioValue : num;
  dailyChange : num;
  holdings : list (Holding num)
}.
Arguments portfolioValue {num} _.
Arguments dailyChange {num} _.
Arguments holdings {num} _.

Section Valuation.
Context {num : Type} `{Arith num}.
Local Open Scope num_scope.

(** [holding.quantity * holding.currentPrice] *)
Definition currentValue (holding : Holding num) : num :=
    quantity holding * currentPrice holding.

(** [holding.quantity * holding.averageCost] *)
Definition costBasis (holding : Holding num) : num :=
    quantity holding * averageCost holding.

(** the row of the holdings table:
      [currentValue - (holding.quantity * holding.averageCost)] *)
Definition gainLoss (holding : Holding num) : num :=
    currentValue holding - (quantity holding * averageCost holding).

(** [(gainLoss / (holding.quantity * holding.averageCost)) * 100] *)
Definition gainLossPercent (holding : Holding num) : num :=
    (gainLoss holding / (quantity holding * averageCost holding)) * of_Z 100.

(** [holdings.reduce((sum, holding) => sum + (currentValue - costBasis), 0)] *)
Definition totalGainLoss (holdings : list (Holding num)) : num :=
    fold_left
      (fun sum holding =>
         let currentValue := quantity holding * currentPrice holding in
         let costBasis := quantity holding * averageCost holding in
         sum + (currentValue - costBasis))
      holdings (of_Z 0).

(** [(totalGainLoss / (portfolioValue - totalGainLoss)) * 100] *)
Definition totalGainLossPercent (st : State num) : num :=
    (totalGainLoss (holdings st)
       / (portfolioValue st - totalGainLoss (holdings st))) * of_Z 100.

(** Left-to-right sum from 0, as [reduce] adds. *)
Definition sigma (xs : list num) : num := fold_left add xs (of_Z 0).

End Valuation.

(** The component's initial state. *)
Definition initialHoldings : list (Holding float) := [
  {| id := js "1"; symbol := js "AAPL"; name := js "Apple Inc."; type := stock;
     quantity := 50; currentPrice := 175.25; averageCost := 165.50; change := 2.3 |};
  {| id := js "2"; symbol := js "BTC"; name := js "Bitcoin"; type := crypto;
     quantity := 0.5; currentPrice := 62500.75; averageCost := 58000.00; change := 5.8 |};
  {| id := js "3"; symbol := js "ETH"; name := js "Ethereum"; type := crypto;
     quantity := 3.2; currentPrice := 3250.50; averageCost := 3100.00; change := 1.9 |};
  {| id := js "4"; symbol := js "GLD"; name := js "SPDR Gold Shares"; type := commodity;
     quantity := 25; currentPrice := 185.75; averageCost := 180.25; change := -0.5 |};
  {| id := js "5"; symbol := js "NVDA"; name := js "NVIDIA Corp"; type := stock;
     quantity := 15; currentPrice := 950.25; averageCost := 850.50; change := 8.2 |}
]%float.

Definition initialState : State float :=
  {| portfolioValue := 125430.75%float;
     dailyChange := 2456.32%float;
     holdings := initialHoldings |}.

(** The same holding with another quantity. *)
Definition withQuantity {num : Type} (q : num) (holding : Holding num) : Holding num :=
  {| id := id holding; symbol := symbol holding; name := name holding;
     type := type holding; quantity := q;
     currentPrice := currentPrice holding; averageCost := averageCost holding;
     change := change holding |}.

(** The percentage without the quantity:
    [(currentPrice - averageCost) / averageCost * 100]. *)
Definition unitGainLossPercent {num : Type} `{Arith num} (holding : Holding num) : num :=
  ((currentPrice holding - averageCost holding) / averageCost holding * of_Z 100)%num.

(** Holdings with a zero cost basis: shares received at no cost, and a
    position that has been sold down to nothing. *)
Definition freeShares : Holding float :=
  {| id := js "6"; symbol := js "FREE"; name := js "Bonus shares"; type := stock;
     quantity := 10; currentPrice := 5; averageCost := 0; change := 0 |}%float.

Definition closedPosition : Holding float :=
  {| id := js "7"; symbol := js "SOLD"; name := js "Closed position"; type := stock;
     quantity := 0; currentPrice := 175.25; averageCost := 165.50; change := 0 |}%float.

(** A portfolio whose value is all gain: its value equals its total gain. *)
Definition allGainPortfolio : State float :=
  {| portfolioValue := 50%float; dailyChange := 0%float; holdings := [freeShares] |}.

(** The first initial holding (AAPL), and a holding with the same gain but
    another market value. *)
Definition aapl : Holding float :=
  {| id := js "1"; symbol := js "AAPL"; name := js "Apple Inc."; type := stock;
     quantity := 50; currentPrice := 175.25; averageCost := 165.50; change := 2.3 |}%float.

Definition sameGainAsAapl : Holding float :=
  {| id := js "8"; symbol := js "XYZ"; name := js "Another"; type := etf;
     quantity := 1; currentPrice := 1487.5; averageCost := 1000; change := 0 |}%float.

(** The third initial holding (ETH), in binary64 and with the same decimal
    figures as exact rationals. *)
Definition eth : Holding float :=
  {| id := js "3"; symbol := js "ETH"; name := js "Ethereum"; type := crypto;
     quantity := 3.2; currentPrice := 3250.50; averageCost := 3100.00; change := 1.9 |}%float.

(** [x >= 0 ? 'text-green-600' : 'text-red-600'], the colour of the total,
    of the daily change and of each row. *)
Definition signColor (x : float) : jsstring :=
  if (0 <=? x)%float then js "text-green-600" else js "text-red-600".

(** [x >= 0 ? '+' : ''] *)
Definition signPrefix (x : float) : jsstring :=
  if (0 <=? x)%float then js "+" else [].

(** The row of a holding: its colour and prefix come from [gainLoss], the
    number after the prefix is [gainLossPercent]. *)
Definition rowColor (holding : Holding float) : jsstring :=
  signColor (gainLoss holding).

Definition rowPrefix (holding : Holding float) : jsstring :=
  signPrefix (gainLoss holding).

(** The colour of the total: [totalGainLoss >= 0 ? 'text-green-600' :
    'text-red-600'], and the prefix before it. *)
Definition totalColor (st : State float) : jsstring :=
  signColor (totalGainLoss (holdings st)).

Definition totalPrefix (st : State float) : jsstring :=
  signPrefix (totalGainLoss (holdings st)).

(** [Math.min(100, Math.abs(totalGainLossPercent) * 3)], the width of the
    bar in percent. *)
Definition barWidth (st : State float) : float :=
  Math_min [100; abs (totalGainLossPercent st) * 3]%float.

(** [holding.symbol.charAt(0)], the letter in the icon. *)
Definition iconLetter (holding : Holding float) : jsstring :=
  charAt (symbol holding) 0.

Definition ethExact : Holding Q :=
  {| id := js "3"; symbol := js "ETH"; name := js "Ethereum"; type := crypto;
     quantity := 3.2; currentPrice := 3250.50; averageCost := 3100.00; change := 1.9 |}%Q.

End PortfolioTracker.

(** ** EconomicCalendar *)

Module EconomicCalendar.

Inductive Surprise := positive | negative | neutral.

(** [importance] is declared [1 | 2 | 3 | 4 | 5]; the comparisons and the
    [switch] that read it take any number, so it is an integer here. *)
Record EconomicEvent := {
  id : jsstring;
  time : jsstring;
  name : jsstring;
  country : jsstring;
  importance : Z;
  forecast : jsstring;
  actual : jsstring;
  surprise : Surprise
}.

Record State := {
  selectedDate : jsstring;
  events : list EconomicEvent
}.

Definition initialEvents : list EconomicEvent := [
  {| id := js "1"; time := js "08:30 ET"; name := js "CPI Inflation"; country := js "US";
     importance := 5; forecast := js "3.2%"; actual := js "3.1%"; surprise := positive |};
  {| id := js "2"; time := js "08:30 ET"; name := js "Retail Sales"; country := js "US";
     importance := 4; forecast := js "+0.4%"; actual := js "+0.6%"; surprise := positive |};
  {| id := js "3"; time := js "10:00 ET"; name := js "Business Inventories"; country := js "US";
     importance := 2; forecast := js "+0.2%"; actual := js "+0.1%"; surprise := negative |};
  {| id := js "4"; time := js "11:30 ET"; name := js "4-Week Bill Auction"; country := js "US";
     importance := 3; forecast := js "4.85%"; actual := js "4.82%"; surprise := positive |};
  {| id := js "5"; time := js "13:00 ET"; name := js "3-Yr Note Auction"; country := js "US";
     importance := 3; forecast := js "4.25%"; actual := js "4.28%"; surprise := negative |};
  {| id := js "6"; time := js "14:00 ET"; name := js "Treasury Buyback Results"; country := js "US";
     importance := 2; forecast := js "N/A"; actual := js "Completed"; surprise := neutral |};
  {| id := js "7"; time := js "15:15 ET"; name := js "Raphael Bostic Speaks"; country := js "US";
     importance := 4; forecast := js "N/A"; actual := js "Scheduled"; surprise := neutral |}
]%Z.

Definition initialState : State :=
  {| selectedDate := js "2026-02-13"; events := initialEvents |}.

(** the date input's [onChange]: [setSelectedDate(e.target.value)] *)
Definition setSelectedDate (value : jsstring) (st : State) : State :=
  {| selectedDate := value; events := events st |}.

(** [events.filter(event => event.importance >= 4)] *)
Definition highImpactEvents (events : list EconomicEvent) : list EconomicEvent :=
  filter (fun event => importance event >= 4)%Z events.

(** [events.filter(event => event.importance === 3)] *)
Definition mediumImpactEvents (events : list EconomicEvent) : list EconomicEvent :=
  filter (fun event => importance event = 3)%Z events.

(** [events.filter(event => event.importance <= 2)] *)
Definition lowImpactEvents (events : list EconomicEvent) : list EconomicEvent :=
  filter (fun event => importance event <= 2)%Z events.

Definition getImportanceColor (importance : Z) : jsstring :=
  match importance with
  | 5 => js "bg-red-100 dark:bg-red-900 text-red-800 dark:text-red-200"
  | 4 => js "bg-orange-100 dark:bg-orange-900 text-orange-800 dark:text-orange-200"
  | 3 => js "bg-yellow-100 dark:bg-yellow-900 text-yellow-800 dark:text-yellow-200"
  | 2 => js "bg-blue-100 dark:bg-blue-900 text-blue-800 dark:text-blue-200"
  | _ => js "bg-gray-100 dark:bg-gray-900 text-gray-800 dark:text-gray-200"
  end%Z.

(** The arrows are U+2197, U+2198 and U+27A1, each followed by the variation
    selector U+FE0F. *)
Definition getSurpriseIcon (surprise : Surprise) : jsstring :=
  match surprise with
  | positive => [8599; 65039]
  | negative => [8600; 65039]
  | neutral => [10145; 65039]
  end%N.

Definition getSurpriseColor (surprise : Surprise) : jsstring :=
  match surprise with
  | positive => js "text-green-600 dark:text-green-400"
  | negative => js "text-red-600 dark:text-red-400"
  | neutral => js "text-gray-600 dark:text-gray-400"
  end.

(** [event.importance === 5 ? fire : event.importance === 4 ? warning : ""]:
    U+1F525 as a surrogate pair, and U+26A0 U+FE0F. *)
Definition importanceTag (importance : Z) : jsstring :=
  if (importance =? 5)%Z then [55357; 56613]%N
  else if (importance =? 4)%Z then [9888; 65039]%N
  else [].

(** One card of the rendered list, with the values the JSX puts in it. *)
Record EventCard := {
  key : jsstring;
  badgeColor : jsstring;
  badgeTag : jsstring;
  badgeImportance : Z;
  cardCountry : jsstring;
  cardTime : jsstring;
  cardName : jsstring;
  cardForecast : jsstring;
  cardActual : jsstring;
  actualColor : jsstring;
  actualIcon : jsstring
}.

Definition renderEvent (event : EconomicEvent) : EventCard :=
  {| key := id event;
     badgeColor := getImportanceColor (importance event);
     badgeTag := importanceTag (importance event);
     badgeImportance := importance event;
     cardCountry := country event;
     cardTime := time event;
     cardName := name event;
     cardForecast := forecast event;
     cardActual := actual event;
     actualColor := getSurpriseColor (surprise event);
     actualIcon := getSurpriseIcon (surprise event) |}.

(** The list the component shows: [events.map((event) => ...)]. *)
Definition displayedEvents (st : State) : list EconomicEvent :=
  events st.

Definition render (st : State) : list EventCard :=
  List.map renderEvent (displayedEvents st).

(** [{highImpactEvents.length} high impact events today] *)
Definition highImpactCount (st : State) : nat :=
  length (highImpactEvents (events st)).

(** The tier of the three groups an importance value is filtered into. *)
Inductive Tier := High | Medium | Low.

Definition tierOf (importance : Z) : Tier :=
  if decide (importance >= 4)%Z then High
  else if decide (importance = 3)%Z then Medium
  else Low.

(** The colour of the [default] branch of [getImportanceColor]. *)
Definition defaultColor : jsstring :=
  js "bg-gray-100 dark:bg-gray-900 text-gray-800 dark:text-gray-200".

(** An event like the first initial one, with another importance. *)
Definition eventOfImportance (i : Z) : EconomicEvent :=
  {| id := js "8"; time := js "16:00 ET"; name := js "Unscheduled Release";
     country := js "US"; importance := i; forecast := js "N/A";
     actual := js "Scheduled"; surprise := neutral |}.

(** The first initial event (CPI Inflation). *)
Definition cpi : EconomicEvent :=
  {| id := js "1"; time := js "08:30 ET"; name := js "CPI Inflation"; country := js "US";
     importance := 5; forecast := js "3.2%"; actual := js "3.1%"; surprise := positive |}.

(** The cards that carry a tag in front of "Impact". *)
Definition taggedCards (cards : list EventCard) : list EventCard :=
  filter (fun card => badgeTag card <> []) cards.

End EconomicCalendar.

(** ** StrategyBuilder *)

Module StrategyBuilder.

Inductive AssetClass := equities | crypto | commodities | multi.

Inductive Status := active | backtesting | paused.

Record Strategy := {
  id : jsstring;
  name : jsstring;
  description : jsstring;
  assetClass : AssetClass;
  sharpeRatio : float;
  totalReturn : float;
  maxDrawdown : float;
  status : Status
}.

(** The form state [newStrategy]. *)
Module NewStrategy.
Record t := {
  name : jsstring;
  description : jsstring;
  assetClass : AssetClass
}.
End NewStrategy.

Record State := {
  strategies : list Strategy;
  newStrategy : NewStrategy.t
}.

Definition initialStrategies : list Strategy := [
  {| id := js "1"; name := js "CPI Momentum";
     description := js "Buy when CPI < 3%, sell when > 5%"; assetClass := equities;
     sharpeRatio := 1.8; totalReturn := 24.5; maxDrawdown := -8.2; status := active |};
  {| id := js "2"; name := js "Fed Speech Sentiment";
     description := js "Long when Fed dovish, short when hawkish"; assetClass := equities;
     sharpeRatio := 2.1; totalReturn := 32.1; maxDrawdown := -6.5; status := active |};
  {| id := js "3"; name := js "Bitcoin Halving Cycle";
     description := js "Accumulate 6 months pre-halving, distribute post"; assetClass := crypto;
     sharpeRatio := 3.2; totalReturn := 185.4; maxDrawdown := -25.3; status := active |};
  {| id := js "4"; name := js "Gold Inflation Hedge";
     description := js "Allocate to gold when real yields negative"; assetClass := commodities;
     sharpeRatio := 1.5; totalReturn := 18.7; maxDrawdown := -12.4; status := backtesting |};
  {| id := js "5"; name := js "Cross-Asset Risk Parity";
     description := js "Risk-weighted allocation across stocks, bonds, gold, crypto";
     assetClass := multi;
     sharpeRatio := 2.4; totalReturn := 28.9; maxDrawdown := -9.8; status := paused |}
]%float.

Definition initialState : State :=
  {| strategies := initialStrategies;
     newStrategy := {| NewStrategy.name := []; NewStrategy.description := [];
                       NewStrategy.assetClass := equities |} |}.

(** [handleCreateStrategy], with the value [Date.now()] returns as [now]. *)
Definition handleCreateStrategy (now : N) (st : State) : State :=
  if not_ (trim (NewStrategy.name (newStrategy st))) then st
  else
    let newStrat :=
      {| id := toString now;
         name := NewStrategy.name (newStrategy st);
         description := NewStrategy.description (newStrategy st);
         assetClass := NewStrategy.assetClass (newStrategy st);
         sharpeRatio := 0;
         totalReturn := 0;
         maxDrawdown := 0;
         status := backtesting |} in
    {| strategies := newStrat :: strategies st;
       newStrategy := {| NewStrategy.name := []; NewStrategy.description := [];
                         NewStrategy.assetClass := equities |} |}.

(** The [onChange] handlers of the three form controls:
    [setNewStrategy({...newStrategy, field: e.target.value})]. *)
Definition changeName (value : jsstring) (st : State) : State :=
  {| strategies := strategies st;
     newStrategy := {| NewStrategy.name := value;
                       NewStrategy.description := NewStrategy.description (newStrategy st);
                       NewStrategy.assetClass := NewStrategy.assetClass (newStrategy st) |} |}.

Definition changeDescription (value : jsstring) (st : State) : State :=
  {| strategies := strategies st;
     newStrategy := {| NewStrategy.name := NewStrategy.name (newStrategy st);
                       NewStrategy.description := value;
                       NewStrategy.assetClass := NewStrategy.assetClass (newStrategy st) |} |}.

Definition changeAssetClass (value : AssetClass) (st : State) : State :=
  {| strategies := strategies st;
     newStrategy := {| NewStrategy.name := NewStrategy.name (newStrategy st);
                       NewStrategy.description := NewStrategy.description (newStrategy st);
                       NewStrategy.assetClass := value |} |}.

(** What the user can do to the component. *)
Inductive Action :=
| ChangeName (value : jsstring)
| ChangeDescription (value : jsstring)
| ChangeAssetClass (value : AssetClass)
| ClickCreate (now : N).

Definition step (st : State) (a : Action) : State :=
  match a with
  | ChangeName v => changeName v st
  | ChangeDescription v => changeDescription v st
  | ChangeAssetClass v => changeAssetClass v st
  | ClickCreate now => handleCreateStrategy now st
  end.

Definition run (st : State) (actions : list Action) : State :=
  fold_left step actions st.

(** The argument is a string in the source; the call site passes
    [strategy.assetClass], so the [default] branch is not reached. *)
Definition getAssetClassColor (assetClass : AssetClass) : jsstring :=
  match assetClass with
  | equities => js "bg-blue-100 dark:bg-blue-900 text-blue-800 dark:text-blue-200"
  | crypto => js "bg-purple-100 dark:bg-purple-900 text-purple-800 dark:text-purple-200"
  | commodities => js "bg-yellow-100 dark:bg-yellow-900 text-yellow-800 dark:text-yellow-200"
  | multi => js "bg-green-100 dark:bg-green-900 text-green-800 dark:text-green-200"
  end.

Definition getStatusColor (status : Status) : jsstring :=
  match status with
  | active => js "bg-green-100 dark:bg-green-900 text-green-800 dark:text-green-200"
  | backtesting => js "bg-yellow-100 dark:bg-yellow-900 text-yellow-800 dark:text-yellow-200"
  | paused => js "bg-gray-100 dark:bg-gray-900 text-gray-800 dark:text-gray-200"
  end.

(** [sharpeRatio >= 2 ? 'text-green-600' : sharpeRatio >= 1 ? 'text-yellow-600'
    : 'text-red-600'] *)
Definition sharpeColor (sharpeRatio : float) : jsstring :=
  if (2 <=? sharpeRatio)%float then js "text-green-600"
  else if (1 <=? sharpeRatio)%float then js "text-yellow-600"
  else js "text-red-600".

(** [totalReturn >= 20 ? 'text-green-600' : totalReturn >= 0 ? 'text-yellow-600'
    : 'text-red-600'] *)
Definition returnColor (totalReturn : float) : jsstring :=
  if (20 <=? totalReturn)%float then js "text-green-600"
  else if (0 <=? totalReturn)%float then js "text-yellow-600"
  else js "text-red-600".

(** [maxDrawdown >= -10 ? 'text-green-600' : maxDrawdown >= -20 ? 'text-yellow-600'
    : 'text-red-600'] *)
Definition drawdownColor (maxDrawdown : float) : jsstring :=
  if (-10 <=? maxDrawdown)%float then js "text-green-600"
  else if (-20 <=? maxDrawdown)%float then js "text-yellow-600"
  else js "text-red-600".

(** [{strategies.length} strategies] *)
Definition strategyCount (st : State) : nat :=
  length (strategies st).

(** The Create clicks of a sequence of actions, as their timestamps. *)
Definition clicks (actions : list Action) : list N :=
  omap (fun a => match a with ClickCreate now => Some now | _ => None end) actions.

(** What every strategy made by Create looks like. *)
Definition freshlyCreated (s : Strategy) : Prop :=
  sharpeRatio s = 0%float /\ totalReturn s = 0%float /\ maxDrawdown s = 0%float /\
  status s = backtesting /\
  Exists (fun c => isWhiteSpace c = false) (name s).

(** No asset class is chosen in a sequence of actions. *)
Definition keepsAssetClass (a : Action) : bool :=
  match a with
  | ChangeAssetClass _ => false
  | _ => true
  end.

(** Typing a name and clicking Create twice, both clicks within the same
    millisecond [now]. *)
Definition createTwice (now : N) : list Action :=
  [ChangeName (js "X"); ClickCreate now; ChangeName (js "Y"); ClickCreate now].

End StrategyBuilder.

(** ** Functions the specification names that the components do not have *)

Module Spec.

Import EconomicCalendar.

Section ByDate.

(** Modelled from the spec: the [releaseDate] field of an event is absent
    from the source ([EconomicEvent] has no date); it is taken as given. *)
Variable releaseDate : EconomicEvent -> jsstring.

(** Modelled from the spec: [filterEventsByDate] is absent from the source.
    "returns the subset of events whose releaseDate equals date, preserving
    original relative order". *)
Definition filterEventsByDate (events : list EconomicEvent) (date : jsstring)
  : list EconomicEvent :=
  filter (fun event => releaseDate event = date) events.

End ByDate.

Definition isDigit (c : N) : bool := ((48 <=? c) && (c <=? 57))%N.

(** Reads a run of decimal digits, continuing the value [acc]; returns the
    value, the number of digits read and the rest of the string. *)
Fixpoint digits (s : jsstring) (acc : N) (n : nat) : N * nat * jsstring :=
  match s with
  | [] => (acc, n, [])
  | c :: s' =>
      if isDigit c then digits s' (10 * acc + (c - 48))%N (S n) else (acc, n, s)
  end.

(** Modelled from the spec: the parser of [classifySurprise] is absent from
    the source. "parse both as signed decimal magnitudes (numeric suffix
    stripped, e.g. %)": an optional sign, digits with an optional decimal
    point (at least one digit), and nothing after them but an optional
    percent sign. Anything else is non-numeric. *)
Definition parseDecimal (s : jsstring) : option Q :=
  let '(neg, s1) :=
    match s with
    | 45%N :: r => (true, r)
    | 43%N :: r => (false, r)
    | _ => (false, s)
    end in
  let '(ip, ni, s2) := digits s1 0%N 0%nat in
  let '(m, nf, s3) :=
    match s2 with
    | 46%N :: r => digits r ip 0%nat
    | _ => (ip, 0%nat, s2)
    end in
  if (ni + nf =? 0)%nat then None
  else
    match s3 with
    | [] | [37%N] =>
        Some (Qmake (if neg then - Z.of_N m else Z.of_N m)
                    (Z.to_pos (10 ^ Z.of_nat nf)))
    | _ => None
    end.

(** Modelled from the spec: [classifySurprise] is absent from the source.
    "if either is non-numeric return neutral; else return positive if
    actual > forecast, negative if actual < forecast, neutral if equal". *)
Definition classifySurprise (actual forecast : jsstring) : Surprise :=
  match parseDecimal actual, parseDecimal forecast with
  | Some a, Some f =>
      match Qcompare a f with
      | Gt => positive
      | Lt => negative
      | Eq => neutral
      end
  | _, _ => neutral
  end.

End Spec.


(** ** Signs of binary64 values *)

(** Values [x] with [0 <= x], and with [x <= 0]: NaN is in neither, both
    zeros are in both. *)
Definition SFnonneg (x : spec_float) : Prop :=
  match x with
  | S754_zero _ => True
  | S754_infinity s | S754_finite s _ _ => s = false
  | S754_nan => False
  end.

Definition SFnonpos (x : spec_float) : Prop :=
  match x with
  | S754_zero _ => True
  | S754_infinity s | S754_finite s _ _ => s = true
  | S754_nan => False
  end.

(** Values [y] with [0 < y]. *)
Definition SFpos (y : spec_float) : Prop :=
  match y with
  | S754_infinity s | S754_finite s _ _ => s = false
  | _ => False
  end.

(** * Properties *)

Import Spec.

(** ** JavaScript strings *)

Section Strings.

Lemma trimStart_nil_iff (s : jsstring) :
  trimStart s = [] <-> Forall (fun c => isWhiteSpace c = true) s.
Proof.
  induction s as [|c s IH]; simpl.
  - split; [constructor | reflexivity].
  - destruct (isWhiteSpace c) eqn:Hc.
    + rewrite IH. split.
      * intros Hs. constructor; assumption.
      * intros Hs. inversion Hs; assumption.
    + split; [discriminate|].
      intros Hs. inversion Hs as [|? ? Hw]. congruence.
Qed.

Lemma trimStart_suffix (s : jsstring) :
  exists w, s = w ++ trimStart s /\ Forall (fun c => isWhiteSpace c = true) w.
Proof.
  induction s as [|c s [w [Hs Hw]]]; simpl.
  - exists []. split; [reflexivity | constructor].
  - destruct (isWhiteSpace c) eqn:Hc.
    + exists (c :: w). split; [simpl; congruence | constructor; assumption].
    + exists []. split; [reflexivity | constructor].
Qed.

(** [s.trim()] is empty exactly when [s] consists of white space only. *)
Lemma trim_nil_iff (s : jsstring) :
  trim s = [] <-> Forall (fun c => isWhiteSpace c = true) s.
Proof.
  unfold trim, trimEnd. split.
  - intros H.
    assert (Hr : trimStart (rev (trimStart s)) = []).
    { apply (f_equal (@rev N)) in H. rewrite rev_involutive in H. exact H. }
    apply trimStart_nil_iff in Hr.
    destruct (trimStart_suffix s) as [w [Hs Hw]].
    rewrite Hs. apply Forall_app. split; [exact Hw|].
    apply Forall_forall. intros c Hc.
    rewrite Forall_forall in Hr. apply Hr.
    apply list_elem_of_In. apply -> in_rev. apply list_elem_of_In. exact Hc.
  - intros H. apply trimStart_nil_iff in H. rewrite H. reflexivity.
Qed.

Lemma not_trim_true_iff (s : jsstring) :
  not_ (trim s) = true <-> Forall (fun c => isWhiteSpace c = true) s.
Proof.
  rewrite <- trim_nil_iff. unfold not_.
  destruct (trim s); split; congruence.
Qed.

Lemma js_inj (s t : string) : js s = js t -> s = t.
Proof.
  unfold js. intros H.
  rewrite <- (string_of_list_ascii_of_string s), <- (string_of_list_ascii_of_string t).
  f_equal.
  revert H. generalize (list_ascii_of_string s) (list_ascii_of_string t).
  induction l as [|a l IH]; intros [|b l']; simpl; try discriminate; [reflexivity|].
  intros H. injection H as Hab Hl.
  rewrite (IH _ Hl). f_equal.
  rewrite <- (ascii_N_embedding a), <- (ascii_N_embedding b). congruence.
Qed.

Lemma to_uint_nonnil (n : N) : N.to_uint n <> Decimal.Nil.
Proof.
  destruct n; simpl; [discriminate | apply DecimalPos.Unsigned.to_uint_nonnil].
Qed.

(** Distinct timestamps print as distinct strings. *)
Lemma toString_inj (n m : N) : toString n = toString m -> n = m.
Proof.
  unfold toString. intros H. apply js_inj in H.
  apply DecimalN.Unsigned.to_uint_inj.
  assert (Hn := NilZero.usu _ (to_uint_nonnil n)).
  assert (Hm := NilZero.usu _ (to_uint_nonnil m)).
  rewrite H in Hn. congruence.
Qed.

End Strings.

(** ** binary64 facts used below *)

Section Binary64.

Lemma of_Z_100 : (of_Z 100 : float) = 100%float.
Proof. reflexivity. Qed.

Lemma of_Z_0 : (of_Z 0 : float) = 0%float.
Proof. reflexivity. Qed.

Lemma float_neq (x y : float) : PrimFloat.Leibniz.eqb x y = false -> x <> y.
Proof.
  intros H E. apply FloatAxioms.Leibniz.eqb_spec in E. congruence.
Qed.

Lemma SF_nonfinite (x : float) :
  (Prim2SF x = S754_nan \/ exists s, Prim2SF x = S754_infinity s) -> nonfinite x.
Proof.
  unfold nonfinite. intros [H | [[|] H]].
  - left. apply Prim2SF_inj. rewrite H. reflexivity.
  - right; right. apply Prim2SF_inj. rewrite H. reflexivity.
  - right; left. apply Prim2SF_inj. rewrite H. reflexivity.
Qed.

(** [y === 0] holds for [+0] and [-0] only. *)
Lemma eqb_zero (y : float) :
  (y =? 0)%float = true -> exists s, Prim2SF y = S754_zero s.
Proof.
  rewrite FloatAxioms.eqb_spec.
  change (Prim2SF 0) with (S754_zero false).
  destruct (Prim2SF y) as [s| [|] | |[|] m e]; simpl; try discriminate.
  intros _. exists s. reflexivity.
Qed.

Lemma div_zero_SF (x y : float) (s : bool) :
  Prim2SF y = S754_zero s ->
  Prim2SF (x / y) = S754_nan \/ exists s', Prim2SF (x / y) = S754_infinity s'.
Proof.
  intros Hy. rewrite div_spec, Hy. unfold SF64div.
  destruct (Prim2SF x) as [sx | sx | | sx m e]; simpl; eauto.
Qed.

Lemma mul_100_SF (x : float) :
  (Prim2SF x = S754_nan \/ exists s, Prim2SF x = S754_infinity s) ->
  Prim2SF (x * 100) = S754_nan \/ exists s, Prim2SF (x * 100) = S754_infinity s.
Proof.
  intros Hx. rewrite mul_spec.
  assert (H100 : exists m e, Prim2SF 100 = S754_finite false m e).
  { eexists _, _. vm_compute. reflexivity. }
  destruct H100 as [m [e ->]]. unfold SF64mul.
  destruct Hx as [-> | [s ->]]; simpl; eauto.
Qed.

(** A quotient by zero, times 100, is NaN or an infinity. *)
Lemma percent_of_zero_divisor (x y : float) :
  (y =? 0)%float = true -> nonfinite (x / y * 100)%float.
Proof.
  intros Hy. destruct (eqb_zero y Hy) as [s Hs].
  apply SF_nonfinite, mul_100_SF, (div_zero_SF x y s Hs).
Qed.

End Binary64.

(** ** PortfolioTracker *)

Section Portfolio.

Import PortfolioTracker.

Lemma fold_gainLoss {num : Type} `{Arith num} (hs : list (Holding num)) (a : num) :
  fold_left
    (fun sum holding =>
       (sum + (quantity holding * currentPrice holding
               - quantity holding * averageCost holding))%num) hs a
  = fold_left add (List.map gainLoss hs) a.
Proof.
  revert a. induction hs as [|h hs IH]; intros a; simpl; [reflexivity|].
  rewrite IH. reflexivity.
Qed.

(** The reducer adds up exactly the gain/loss figures of the rows, in any
    arithmetic. *)
Lemma totalGainLoss_sum {num : Type} `{Arith num} (hs : list (Holding num)) :
  totalGainLoss hs = sigma (List.map gainLoss hs).
Proof. unfold totalGainLoss, sigma. apply fold_gainLoss. Qed.

Lemma gainLoss_eq {num : Type} `{Arith num} (h : Holding num) :
  gainLoss h = (currentValue h - costBasis h)%num.
Proof. reflexivity. Qed.

Lemma gainLossPercent_eq (h : Holding float) :
  gainLossPercent h = (gainLoss h / costBasis h * 100)%float.
Proof. reflexivity. Qed.

Lemma totalGainLossPercent_eq (st : State float) :
  totalGainLossPercent st
  = (totalGainLoss (holdings st)
       / (portfolioValue st - totalGainLoss (holdings st)) * 100)%float.
Proof. reflexivity. Qed.

(** C4: for every holding, currentValue = quantity * currentPrice,
    costBasis = quantity * averageCost and gainLoss = currentValue - costBasis;
    a holding of 50 units at price 175.25 bought at 165.50 has
    currentValue 8762.50, costBasis 8275.00, gainLoss 487.50 and a
    gainLossPercent that rounds to 5.89. *)
Theorem holding_valuation :
  (forall h : Holding float,
     currentValue h = (quantity h * currentPrice h)%float /\
     costBasis h = (quantity h * averageCost h)%float /\
     gainLoss h = (currentValue h - costBasis h)%float) /\
  (forall h : Holding float,
     quantity h = 50%float -> currentPrice h = 175.25%float ->
     averageCost h = 165.50%float ->
     currentValue h = 8762.50%float /\
     costBasis h = 8275.00%float /\
     gainLoss h = 487.50%float /\
     (5.885 <=? gainLossPercent h)%float = true /\
     (gainLossPercent h <? 5.895)%float = true).
Proof.
  split.
  - intros h. repeat split.
  - intros [i s n t q p c ch]; simpl. intros -> -> ->.
    repeat split; vm_compute; reflexivity.
Qed.

Lemma holding_valuation_witness :
  currentValue aapl = 8762.50%float /\
  costBasis aapl = 8275.00%float /\
  gainLoss aapl = 487.50%float /\
  (5.885 <=? gainLossPercent aapl)%float = true /\
  (gainLossPercent aapl <? 5.895)%float = true.
Proof.
  apply (proj2 holding_valuation); reflexivity.
Defined.

(** C5: totalGainLoss is the sum of the per-holding gainLoss figures, and
    when portfolioValue - totalGainLoss is not 0 the total percentage is
    totalGainLoss / (portfolioValue - totalGainLoss) * 100, where
    portfolioValue is the component's own state value and not the sum of
    the holdings' current values (the two differ in the initial state). *)
Theorem portfolio_summary :
  (forall st : State float,
     totalGainLoss (holdings st) = sigma (List.map gainLoss (holdings st)) /\
     ((portfolioValue st - totalGainLoss (holdings st) =? 0)%float = false ->
      totalGainLossPercent st
      = (totalGainLoss (holdings st)
           / (portfolioValue st - totalGainLoss (holdings st)) * 100)%float)) /\
  (forall (st : State float) (hs : list (Holding float)),
     List.map gainLoss hs = List.map gainLoss (holdings st) ->
     totalGainLossPercent
       {| portfolioValue := portfolioValue st; dailyChange := dailyChange st;
          holdings := hs |}
     = totalGainLossPercent st) /\
  portfolioValue initialState <> sigma (List.map currentValue (holdings initialState)).
Proof.
  repeat split.
  - apply totalGainLoss_sum.
  - intros st hs Hhs. rewrite !totalGainLossPercent_eq. simpl.
    rewrite !totalGainLoss_sum, Hhs. reflexivity.
  - apply float_neq. vm_compute. reflexivity.
Qed.

Lemma portfolio_summary_witness :
  totalGainLossPercent initialState
  = (totalGainLoss initialHoldings
       / (125430.75 - totalGainLoss initialHoldings) * 100)%float /\
  totalGainLossPercent
    {| portfolioValue := 125430.75%float; dailyChange := 2456.32%float;
       holdings := [sameGainAsAapl] |}
  = totalGainLossPercent
      {| portfolioValue := 125430.75%float; dailyChange := 2456.32%float;
         holdings := [aapl] |}.
Proof.
  destruct portfolio_summary as (Hsum & Hext & _).
  split.
  - apply (proj2 (Hsum initialState)). vm_compute. reflexivity.
  - apply (Hext {| portfolioValue := 125430.75%float; dailyChange := 2456.32%float;
                   holdings := [aapl] |} [sameGainAsAapl]).
    vm_compute. reflexivity.
Defined.

(** C2, as the code has it: for a holding whose cost basis is 0 the
    percentage is the unguarded binary64 quotient gainLoss / costBasis * 100,
    which is NaN, +Infinity or -Infinity; the same holds for the total
    percentage when portfolioValue - totalGainLoss is 0. No sentinel is put
    in its place, and the computation always returns a number. *)
Theorem zero_cost_basis_percent :
  (forall h : Holding float,
     (costBasis h =? 0)%float = true ->
     gainLossPercent h = (gainLoss h / costBasis h * 100)%float /\
     nonfinite (gainLossPercent h)) /\
  (forall st : State float,
     (portfolioValue st - totalGainLoss (holdings st) =? 0)%float = true ->
     totalGainLossPercent st
     = (totalGainLoss (holdings st)
          / (portfolioValue st - totalGainLoss (holdings st)) * 100)%float /\
     nonfinite (totalGainLossPercent st)).
Proof.
  split.
  - intros h Hz. split; [reflexivity|].
    rewrite gainLossPercent_eq. apply percent_of_zero_divisor, Hz.
  - intros st Hz. split; [reflexivity|].
    rewrite totalGainLossPercent_eq. apply percent_of_zero_divisor, Hz.
Qed.

Lemma zero_cost_basis_percent_witness :
  nonfinite (gainLossPercent closedPosition) /\
  nonfinite (totalGainLossPercent allGainPortfolio).
Proof.
  split.
  - apply (proj1 zero_cost_basis_percent closedPosition). vm_compute. reflexivity.
  - apply (proj2 zero_cost_basis_percent allGainPortfolio).
    vm_compute. reflexivity.
Defined.

(** C2 fails as stated: ten shares received at no cost and now priced at 5
    have cost basis 0, and their percentage is the raw quotient 50 / 0 * 100,
    that is +Infinity; a position of quantity 0 gives the raw 0 / 0 * 100,
    NaN; a portfolio whose value equals its total gain gives +Infinity for
    the total percentage. *)
Lemma zero_cost_basis_percent_unguarded :
  (costBasis freeShares =? 0)%float = true /\
  gainLossPercent freeShares = (50 / 0 * 100)%float /\
  gainLossPercent freeShares = infinity /\
  (costBasis closedPosition =? 0)%float = true /\
  gainLossPercent closedPosition = (0 / 0 * 100)%float /\
  gainLossPercent closedPosition = nan /\
  (portfolioValue allGainPortfolio
     - totalGainLoss (holdings allGainPortfolio) =? 0)%float = true /\
  totalGainLossPercent allGainPortfolio = infinity.
Proof. repeat split. Qed.

(** C10, in exact arithmetic: for quantity > 0 and averageCost > 0 the
    percentage of a holding equals (currentPrice - averageCost) / averageCost
    * 100, and does not change with the quantity. *)
Theorem gainLossPercent_exact (h : Holding Q) :
  (0 < quantity h)%Q -> (0 < averageCost h)%Q ->
  (gainLossPercent h == unitGainLossPercent h)%Q /\
  (forall q : Q, (0 < q)%Q ->
     (gainLossPercent (withQuantity q h) == gainLossPercent h)%Q).
Proof.
  intros Hq Hc.
  assert (Hq' : ~ (quantity h == 0)%Q) by (intros E; rewrite E in Hq; inversion Hq).
  assert (Hc' : ~ (averageCost h == 0)%Q) by (intros E; rewrite E in Hc; inversion Hc).
  unfold gainLossPercent, unitGainLossPercent, gainLoss, currentValue; simpl.
  split.
  - field. split; assumption.
  - intros q Hpos.
    assert (Hq0 : ~ (q == 0)%Q) by (intros E; rewrite E in Hpos; inversion Hpos).
    field. repeat split; assumption.
Qed.

Lemma gainLossPercent_exact_witness :
  (gainLossPercent ethExact == unitGainLossPercent ethExact)%Q /\
  (gainLossPercent (withQuantity 1%Q ethExact) == gainLossPercent ethExact)%Q.
Proof.
  destruct (gainLossPercent_exact ethExact) as [Hunit Hq]; [reflexivity | reflexivity |].
  split; [exact Hunit | apply Hq; reflexivity].
Defined.

(** C10 fails in binary64: for the ETH holding of the initial state
    (quantity 3.2, price 3250.50, average cost 3100.00) the percentage the
    component computes is not (currentPrice - averageCost) / averageCost * 100,
    and it changes when the quantity is set to 1; with a quantity so large
    that quantity * price overflows it is NaN. *)
Lemma gainLossPercent_binary64_depends_on_quantity :
  (0 <? quantity eth)%float = true /\
  (0 <? averageCost eth)%float = true /\
  gainLossPercent eth <> unitGainLossPercent eth /\
  gainLossPercent (withQuantity 1%float eth) <> gainLossPercent eth /\
  gainLossPercent (withQuantity 1e308%float eth) = nan.
Proof.
  repeat split; try reflexivity; apply float_neq; vm_compute; reflexivity.
Qed.

(** On the initial holdings the two binary64 values differ by rounding only:
    they agree to within 1e-14, and exactly for all but ETH. *)
Lemma initial_percent_close :
  Forall (fun h =>
            (abs (gainLossPercent h - unitGainLossPercent h) <? 1e-14)%float = true)
         initialHoldings /\
  List.map (fun h => PrimFloat.Leibniz.eqb (gainLossPercent h) (unitGainLossPercent h))
           initialHoldings
  = [true; true; false; true; true].
Proof.
  split; [repeat constructor | reflexivity].
Qed.

End Portfolio.

(** ** EconomicCalendar *)

Section Calendar.

Import EconomicCalendar.
Local Open Scope Z_scope.

Lemma exactly_one_group (i : Z) :
  ((i >= 4) /\ ~ (i = 3) /\ ~ (i <= 2)) \/
  (~ (i >= 4) /\ (i = 3) /\ ~ (i <= 2)) \/
  (~ (i >= 4) /\ ~ (i = 3) /\ (i <= 2)).
Proof. lia. Qed.

Lemma groups_permutation (events : list EconomicEvent) :
  events ≡ₚ highImpactEvents events ++ mediumImpactEvents events ++ lowImpactEvents events.
Proof.
  unfold highImpactEvents, mediumImpactEvents, lowImpactEvents.
  induction events as [|e events IH]; [reflexivity|].
  rewrite !filter_cons.
  destruct (exactly_one_group (importance e)) as [(H & M & L) | [(H & M & L) | (H & M & L)]];
    repeat case_decide; try contradiction.
  - simpl. constructor. exact IH.
  - rewrite <- app_comm_cons, <- Permutation_middle. constructor. exact IH.
  - rewrite app_assoc, <- Permutation_middle, <- app_assoc. constructor. exact IH.
Qed.

(** C9: when every importance lies in 1..5 the three groups partition the
    event list: the list is a rearrangement of high ++ medium ++ low, no
    event is in two groups, and each group is a subsequence of the list
    (it keeps the original relative order). *)
Theorem impact_groups_partition (events : list EconomicEvent) :
  Forall (fun event => 1 <= importance event <= 5) events ->
  events ≡ₚ highImpactEvents events ++ mediumImpactEvents events ++ lowImpactEvents events /\
  length events
  = (length (highImpactEvents events) + length (mediumImpactEvents events)
     + length (lowImpactEvents events))%nat /\
  (forall event, event ∈ events ->
     ((event ∈ highImpactEvents events) /\ (event ∉ mediumImpactEvents events)
      /\ (event ∉ lowImpactEvents events)) \/
     ((event ∉ highImpactEvents events) /\ (event ∈ mediumImpactEvents events)
      /\ (event ∉ lowImpactEvents events)) \/
     ((event ∉ highImpactEvents events) /\ (event ∉ mediumImpactEvents events)
      /\ (event ∈ lowImpactEvents events))) /\
  highImpactEvents events `sublist_of` events /\
  mediumImpactEvents events `sublist_of` events /\
  lowImpactEvents events `sublist_of` events.
Proof.
  intros _. split; [apply groups_permutation|]. split.
  { rewrite (Permutation_length (groups_permutation events)) at 1.
    rewrite !length_app. lia. }
  split.
  { intros e He. unfold highImpactEvents, mediumImpactEvents, lowImpactEvents.
    rewrite !list_elem_of_filter.
    destruct (exactly_one_group (importance e)) as [(H & M & L) | [(H & M & L) | (H & M & L)]];
      [left | right; left | right; right]; tauto. }
  unfold highImpactEvents, mediumImpactEvents, lowImpactEvents.
  repeat split; apply sublist_filter.
Qed.

Lemma impact_groups_partition_witness :
  highImpactEvents initialEvents `sublist_of` initialEvents /\
  length initialEvents
  = (length (highImpactEvents initialEvents) + length (mediumImpactEvents initialEvents)
     + length (lowImpactEvents initialEvents))%nat.
Proof.
  assert (H : Forall (fun event => 1 <= importance event <= 5) initialEvents).
  { unfold initialEvents. repeat constructor; simpl; lia. }
  destruct (impact_groups_partition initialEvents H) as (_ & Hlen & _ & Hhigh & _).
  split; [exact Hhigh | exact Hlen].
Defined.

Lemma tierOf_High (i : Z) : tierOf i = High <-> i >= 4.
Proof. unfold tierOf. repeat case_decide; split; (discriminate || lia || reflexivity). Qed.

Lemma tierOf_Medium (i : Z) : tierOf i = Medium <-> i = 3.
Proof. unfold tierOf. repeat case_decide; split; (discriminate || lia || reflexivity). Qed.

Lemma tierOf_Low (i : Z) : tierOf i = Low <-> i <= 2.
Proof. unfold tierOf. repeat case_decide; split; (discriminate || lia || reflexivity). Qed.

Lemma getImportanceColor_default (i : Z) :
  i <> 5 -> i <> 4 -> i <> 3 -> i <> 2 -> getImportanceColor i = defaultColor.
Proof.
  intros H5 H4 H3 H2. unfold getImportanceColor.
  destruct i as [|p|p]; try reflexivity.
  destruct p as [[[|[]|]|[|[]|]|]|[[|[]|]|[|[]|]|]|]; try reflexivity; lia.
Qed.

Lemma importanceTag_none (i : Z) : i <> 5 -> i <> 4 -> importanceTag i = [].
Proof.
  intros H5 H4. unfold importanceTag.
  destruct (Z.eqb_spec i 5); [contradiction|].
  destruct (Z.eqb_spec i 4); [contradiction|]. reflexivity.
Qed.

(** C6, as the code has it: an event is in the high group exactly when its
    importance is at least 4, in the medium group when it is 3 and in the
    low group when it is at most 2, so that on the declared scale 1..5 the
    tiers are High = {4, 5}, Medium = {3}, Low = {1, 2}; the badge colour has
    cases for 5, 4, 3 and 2 and gives 1 and every other value the default
    colour (and no tag). *)
Theorem importance_tiers :
  (forall events event,
     (event ∈ highImpactEvents events
      <-> event ∈ events /\ tierOf (importance event) = High) /\
     (event ∈ mediumImpactEvents events
      <-> event ∈ events /\ tierOf (importance event) = Medium) /\
     (event ∈ lowImpactEvents events
      <-> event ∈ events /\ tierOf (importance event) = Low)) /\
  (forall i, (tierOf i = High <-> i >= 4) /\ (tierOf i = Medium <-> i = 3)
             /\ (tierOf i = Low <-> i <= 2)) /\
  (forall i, 1 <= i <= 5 ->
     (tierOf i = High <-> i = 4 \/ i = 5) /\
     (tierOf i = Medium <-> i = 3) /\
     (tierOf i = Low <-> i = 1 \/ i = 2)) /\
  (forall i, i <> 5 -> i <> 4 -> i <> 3 -> i <> 2 ->
     getImportanceColor i = defaultColor /\ importanceTag i = []) /\
  (forall i, getImportanceColor i = defaultColor -> i <> 5 /\ i <> 4 /\ i <> 3 /\ i <> 2).
Proof.
  split.
  { intros events e. unfold highImpactEvents, mediumImpactEvents, lowImpactEvents.
    rewrite !list_elem_of_filter, tierOf_High, tierOf_Medium, tierOf_Low. tauto. }
  split.
  { intros i. split; [apply tierOf_High | split; [apply tierOf_Medium | apply tierOf_Low]]. }
  split.
  { intros i Hi. rewrite tierOf_High, tierOf_Medium, tierOf_Low. lia. }
  split.
  { intros i H5 H4 H3 H2. split.
    - apply getImportanceColor_default; assumption.
    - apply importanceTag_none; assumption. }
  intros i Hc. repeat split; intros ->; vm_compute in Hc; discriminate.
Qed.

Lemma importance_tiers_witness :
  (tierOf 5 = High /\ tierOf 4 = High /\ tierOf 3 = Medium
   /\ tierOf 2 = Low /\ tierOf 1 = Low) /\
  getImportanceColor 1 = defaultColor /\ importanceTag 1 = [] /\
  getImportanceColor 0 = defaultColor /\
  (1 <> 5 /\ 1 <> 4 /\ 1 <> 3 /\ 1 <> 2).
Proof.
  destruct importance_tiers as (_ & _ & Hscale & Hdefault & Hlabelled).
  split.
  - destruct (Hscale 5 ltac:(lia)) as (H5 & _ & _).
    destruct (Hscale 4 ltac:(lia)) as (H4 & _ & _).
    destruct (Hscale 3 ltac:(lia)) as (_ & H3 & _).
    destruct (Hscale 2 ltac:(lia)) as (_ & _ & H2).
    destruct (Hscale 1 ltac:(lia)) as (_ & _ & H1).
    split; [apply H5; lia|]. split; [apply H4; lia|].
    split; [apply H3; lia|]. split; [apply H2; lia | apply H1; lia].
  - destruct (Hdefault 1 ltac:(lia) ltac:(lia) ltac:(lia) ltac:(lia)) as [Hc Ht].
    destruct (Hdefault 0 ltac:(lia) ltac:(lia) ltac:(lia) ltac:(lia)) as [Hc0 _].
    split; [exact Hc|]. split; [exact Ht|]. split; [exact Hc0|].
    apply (Hlabelled 1). reflexivity.
Defined.

(** C6 fails as stated for a value outside the labelled cases: importance 6
    gets the default colour and no tag, yet the event is counted in the high
    group and not in the low one. *)
Lemma importance_other_not_low :
  getImportanceColor 6 = defaultColor /\
  importanceTag 6 = [] /\
  tierOf 6 = High /\
  highImpactEvents [eventOfImportance 6] = [eventOfImportance 6] /\
  lowImpactEvents [eventOfImportance 6] = [].
Proof. repeat split. Qed.

(** The selected date is stored and shown in the input, and nothing else
    reads it. *)
Lemma displayedEvents_setSelectedDate (date : jsstring) (st : State) :
  displayedEvents (setSelectedDate date st) = events st.
Proof. reflexivity. Qed.

(** Whatever release dates the events have, a non-empty list cannot be the
    date-filtered list for two different dates. *)
Lemma displayed_not_filtered (releaseDate : EconomicEvent -> jsstring)
    (d1 d2 : jsstring) (st : State) :
  d1 <> d2 -> events st <> [] ->
  ~ (displayedEvents (setSelectedDate d1 st)
       = filterEventsByDate releaseDate (events st) d1 /\
     displayedEvents (setSelectedDate d2 st)
       = filterEventsByDate releaseDate (events st) d2).
Proof.
  intros Hd Hne [H1 H2]. rewrite displayedEvents_setSelectedDate in H1, H2.
  destruct (events st) as [|e l] eqn:He; [contradiction|].
  assert (He1 : e ∈ filterEventsByDate releaseDate (e :: l) d1)
    by (rewrite <- H1; left).
  assert (He2 : e ∈ filterEventsByDate releaseDate (e :: l) d2)
    by (rewrite <- H2; left).
  unfold filterEventsByDate in He1, He2.
  apply list_elem_of_filter in He1, He2. destruct He1, He2. congruence.
Qed.

(** C1, at the failing input: with the initial events, all of which belong
    to the initial date 2026-02-13, selecting 2026-02-14 still shows all
    seven events, whereas filtering by that date leaves none; the shown list
    is the whole event list for every selected date. *)
Theorem displayed_events_ignore_date :
  (forall date st, displayedEvents (setSelectedDate date st) = events st) /\
  displayedEvents (setSelectedDate (js "2026-02-14") initialState) = initialEvents /\
  List.map key (render (setSelectedDate (js "2026-02-14") initialState))
    = [js "1"; js "2"; js "3"; js "4"; js "5"; js "6"; js "7"] /\
  highImpactCount (setSelectedDate (js "2026-02-14") initialState) = 3%nat /\
  filterEventsByDate (fun _ => js "2026-02-13") initialEvents (js "2026-02-14") = [] /\
  filterEventsByDate (fun _ => js "2026-02-13") initialEvents (js "2026-02-13")
    = initialEvents.
Proof. repeat split. Qed.

Lemma classifySurprise_non_numeric (a f : jsstring) :
  parseDecimal a = None \/ parseDecimal f = None -> classifySurprise a f = neutral.
Proof.
  unfold classifySurprise. intros [-> | ->]; [reflexivity|].
  destruct (parseDecimal a); reflexivity.
Qed.

Lemma classifySurprise_numeric (a f : jsstring) (x y : Q) :
  parseDecimal a = Some x -> parseDecimal f = Some y ->
  (classifySurprise a f = positive <-> (y < x)%Q) /\
  (classifySurprise a f = negative <-> (x < y)%Q) /\
  (classifySurprise a f = neutral <-> (x == y)%Q).
Proof.
  unfold classifySurprise. intros -> ->.
  rewrite (Qgt_alt x y), (Qlt_alt x y), (Qeq_alt x y).
  destruct (x ?= y)%Q; repeat split; congruence.
Qed.

(** C3, as far as it holds: classifySurprise, as the specification defines
    it, is neutral when either string is non-numeric and otherwise compares
    the two parsed values, so that classifySurprise("3.1%", "3.2%") is negative;
    the component has no such function, a displayed event shows the icon
    and colour of its stored surprise field, and in the initial events that
    field is neutral exactly when classifySurprise is. *)
Theorem classifySurprise_and_stored_surprise :
  (forall a f, parseDecimal a = None \/ parseDecimal f = None ->
     classifySurprise a f = neutral) /\
  (forall a f x y, parseDecimal a = Some x -> parseDecimal f = Some y ->
     (classifySurprise a f = positive <-> (y < x)%Q) /\
     (classifySurprise a f = negative <-> (x < y)%Q) /\
     (classifySurprise a f = neutral <-> (x == y)%Q)) /\
  (parseDecimal (js "N/A") = None /\ parseDecimal (js "Scheduled") = None
   /\ parseDecimal (js "Completed") = None) /\
  (classifySurprise (js "3.1%") (js "3.2%") = negative /\
   classifySurprise (js "+0.6%") (js "+0.4%") = positive /\
   classifySurprise (js "Completed") (js "N/A") = neutral) /\
  (forall st, List.map actualIcon (render st)
              = List.map (fun event => getSurpriseIcon (surprise event)) (events st)) /\
  Forall (fun event =>
            surprise event = neutral
            <-> classifySurprise (actual event) (forecast event) = neutral)
         initialEvents.
Proof.
  split; [exact classifySurprise_non_numeric|].
  split; [exact classifySurprise_numeric|].
  split; [repeat split|]. split; [repeat split|]. split.
  - intros st. unfold render, displayedEvents. rewrite List.map_map. reflexivity.
  - unfold initialEvents.
    repeat constructor; simpl; vm_compute; intros H; (reflexivity || discriminate).
Qed.

Lemma classifySurprise_and_stored_surprise_witness :
  classifySurprise (js "Completed") (js "N/A") = neutral /\
  (classifySurprise (js "3.1%") (js "3.2%") = negative <-> (3.1 < 3.2)%Q).
Proof.
  destruct classifySurprise_and_stored_surprise as (Hnon & Hnum & _).
  split.
  - apply Hnon. left. reflexivity.
  - apply (Hnum (js "3.1%") (js "3.2%") 3.1%Q 3.2%Q); reflexivity.
Defined.

(** C3 fails for the displayed events: the first initial event (actual
    "3.1%", forecast "3.2%") is displayed with the stored surprise positive,
    while classifySurprise of its two fields is negative. *)
Lemma stored_surprise_differs :
  cpi ∈ displayedEvents initialState /\
  surprise cpi = positive /\
  classifySurprise (actual cpi) (forecast cpi) = negative /\
  List.map surprise (displayedEvents initialState)
    = [positive; positive; negative; positive; negative; neutral; neutral] /\
  List.map (fun event => classifySurprise (actual event) (forecast event))
           (displayedEvents initialState)
    = [negative; positive; negative; negative; positive; neutral; neutral].
Proof.
  split; [left|]. repeat split.
Qed.

End Calendar.

(** ** StrategyBuilder *)

Section Strategies.

Import StrategyBuilder.

(** An accepted click puts one strategy, built from the form, in front of
    the list and clears the form. *)
Lemma handleCreateStrategy_accepts (now : N) (st : State) :
  not_ (trim (NewStrategy.name (newStrategy st))) = false ->
  handleCreateStrategy now st
  = {| strategies :=
         {| id := toString now;
            name := NewStrategy.name (newStrategy st);
            description := NewStrategy.description (newStrategy st);
            assetClass := NewStrategy.assetClass (newStrategy st);
            sharpeRatio := 0; totalReturn := 0; maxDrawdown := 0;
            status := backtesting |} :: strategies st;
       newStrategy := newStrategy initialState |}.
Proof.
  intros H. unfold handleCreateStrategy. rewrite H. reflexivity.
Qed.

(** The new id is new when the timestamp is. *)
Lemma handleCreateStrategy_fresh_id (now : N) (st : State) :
  not_ (trim (NewStrategy.name (newStrategy st))) = false ->
  toString now ∉ List.map id (strategies st) ->
  NoDup (List.map id (strategies st)) ->
  NoDup (List.map id (strategies (handleCreateStrategy now st))).
Proof.
  intros H Hfresh Hnd. rewrite (handleCreateStrategy_accepts now st H). simpl.
  constructor; assumption.
Qed.

(** As long as the user picks no asset class, the form holds equities. *)
Lemma default_assetClass (actions : list Action) :
  forallb keepsAssetClass actions = true ->
  NewStrategy.assetClass (newStrategy (run initialState actions)) = equities.
Proof.
  unfold run.
  assert (Hgen : forall st,
            NewStrategy.assetClass (newStrategy st) = equities ->
            forallb keepsAssetClass actions = true ->
            NewStrategy.assetClass (newStrategy (fold_left step actions st)) = equities).
  { induction actions as [|a actions IH]; intros st Hst Hk; simpl in *; [exact Hst|].
    apply andb_prop in Hk as [Ha Hk]. apply IH; [|exact Hk].
    destruct a; simpl in *; try assumption; try discriminate.
    unfold handleCreateStrategy.
    destruct (not_ (trim (NewStrategy.name (newStrategy st)))); [assumption | reflexivity]. }
  apply Hgen. reflexivity.
Qed.

(** C8: when the name is empty after trimming, Create changes nothing: the
    state after the click is the state before it, strategy list and form
    alike, and the handler returns normally. *)
Theorem handleCreateStrategy_rejects (now : N) (st : State) :
  trim (NewStrategy.name (newStrategy st)) = [] ->
  handleCreateStrategy now st = st /\
  strategies (handleCreateStrategy now st) = strategies st /\
  newStrategy (handleCreateStrategy now st) = newStrategy st.
Proof.
  intros H. unfold handleCreateStrategy. rewrite H. simpl. repeat split.
Qed.

Lemma handleCreateStrategy_rejects_witness :
  let st := changeName (js "  ") initialState in
  handleCreateStrategy 1700000000000 st = st /\
  strategies (handleCreateStrategy 1700000000000 st) = strategies st /\
  newStrategy (handleCreateStrategy 1700000000000 st) = newStrategy st.
Proof.
  intros st. apply (handleCreateStrategy_rejects 1700000000000 st). reflexivity.
Defined.

(** C7, at the failing input: two strategies created within the same
    millisecond get the same id, whatever the timestamp is. Each of the two
    clicks does prepend one strategy with zeroed metrics, status backtesting
    and asset class equities. *)
Theorem same_millisecond_same_id :
  forall now : N,
    let st := run initialState (createTwice now) in
    List.map id (strategies st)
      = [toString now; toString now; js "1"; js "2"; js "3"; js "4"; js "5"] /\
    List.map name (strategies st)
      = [js "Y"; js "X"] ++ List.map name initialStrategies /\
    ~ NoDup (List.map id (strategies st)) /\
    Forall (fun s => sharpeRatio s = 0%float /\ totalReturn s = 0%float
                     /\ maxDrawdown s = 0%float /\ status s = backtesting
                     /\ assetClass s = equities)
           (take 2 (strategies st)).
Proof.
  intros now st.
  split; [reflexivity|]. split; [reflexivity|]. split.
  - intros H. apply NoDup_cons in H as [Hnotin _]. apply Hnotin. left.
  - repeat constructor.
Qed.

(** Strategies created at different timestamps get different ids. *)
Lemma distinct_timestamps_distinct_ids (t1 t2 : N) (st : State) :
  t1 <> t2 ->
  not_ (trim (NewStrategy.name (newStrategy st))) = false ->
  toString t2 ∉ List.map id (take 1 (strategies (handleCreateStrategy t1 st))).
Proof.
  intros Ht H. rewrite (handleCreateStrategy_accepts t1 st H). simpl.
  intros Hin. apply list_elem_of_singleton in Hin.
  apply Ht. symmetry. apply toString_inj. exact Hin.
Qed.

End Strategies.

(** ** Order and signs in binary64 *)

Section Binary64Order.

Lemma SFleb_trans (x y z : spec_float) :
  SFleb x y = true -> SFleb y z = true -> SFleb x z = true.
Proof.
  unfold SFleb, SFcompare.
  destruct x as [sx|sx| |sx mx ex], y as [sy|sy| |sy my ey], z as [sz|sz| |sz mz ez];
    try destruct sx; try destruct sy; try destruct sz;
    simpl; try reflexivity; try discriminate;
    change (Pos.compare_cont Eq ?a ?b) with (Pos.compare a b);
    repeat match goal with
           | |- context [Z.compare ?a ?b] => destruct (Z.compare_spec a b)
           | |- context [Pos.compare ?a ?b] => destruct (Pos.compare_spec a b)
           end;
    simpl; try reflexivity; try discriminate; try lia.
Qed.

Lemma leb_trans (a b c : float) :
  (a <=? b)%float = true -> (b <=? c)%float = true -> (a <=? c)%float = true.
Proof. rewrite !leb_spec. apply SFleb_trans. Qed.

Lemma ltb_leb (a b : float) : (a <? b)%float = true -> (a <=? b)%float = true.
Proof.
  rewrite ltb_spec, leb_spec. unfold SFltb, SFleb.
  destruct (SFcompare (Prim2SF a) (Prim2SF b)) as [[]|]; congruence.
Qed.

Lemma leb_zero_nonneg (x : float) :
  (0 <=? x)%float = true <-> SFnonneg (Prim2SF x).
Proof.
  rewrite leb_spec. change (Prim2SF 0) with (S754_zero false).
  destruct (Prim2SF x) as [s|[|]| |[|] m e]; simpl; split;
    (reflexivity || discriminate || contradiction || trivial).
Qed.

Lemma leb_nonpos_zero (x : float) :
  (x <=? 0)%float = true <-> SFnonpos (Prim2SF x).
Proof.
  rewrite leb_spec. change (Prim2SF 0) with (S754_zero false).
  destruct (Prim2SF x) as [s|[|]| |[|] m e]; simpl; split;
    (reflexivity || discriminate || contradiction || trivial).
Qed.

Lemma ltb_zero_pos (y : float) :
  (0 <? y)%float = true <-> SFpos (Prim2SF y).
Proof.
  rewrite ltb_spec. change (Prim2SF 0) with (S754_zero false).
  destruct (Prim2SF y) as [s|[|]| |[|] m e]; simpl; split;
    (reflexivity || discriminate || contradiction || trivial).
Qed.

(** [0 <= x] fails for the negative numbers and for NaN. *)
Lemma leb_zero_false (x : float) :
  (0 <=? x)%float = false ->
  Prim2SF x = S754_nan \/ (SFnonpos (Prim2SF x) /\ ~ SFnonneg (Prim2SF x)).
Proof.
  rewrite leb_spec. change (Prim2SF 0) with (S754_zero false).
  destruct (Prim2SF x) as [s|[|]| |[|] m e]; simpl; intros H;
    try discriminate; auto; right; split; (reflexivity || discriminate).
Qed.

(** Rounding keeps the sign: the result is a zero, a finite number or an
    infinity of the sign given, or NaN. *)
Lemma binary_round_aux_sign (sx : bool) (mx ex : Z) (lx : location) :
  let r := binary_round_aux prec emax sx mx ex lx in
  r = S754_nan \/ (if sx then SFnonpos r else SFnonneg r).
Proof.
  unfold binary_round_aux.
  destruct (shr_fexp prec emax mx ex lx) as [mrs' e'].
  destruct (shr_fexp prec emax _ e' loc_Exact) as [mrs'' e''].
  destruct (shr_m mrs'') as [|m|m]; [right | | left; reflexivity].
  - destruct sx; exact I.
  - destruct (Z.leb e'' (emax - prec)); right; destruct sx; reflexivity.
Qed.

Lemma shr_1_nonneg (mrs : shr_record) :
  (0 <= shr_m mrs)%Z -> (0 <= shr_m (shr_1 mrs))%Z.
Proof.
  destruct mrs as [m r s]. simpl.
  destruct m as [|[p|p|]|[p|p|]]; simpl; lia.
Qed.

Lemma iter_pos_invariant {A : Type} (f : A -> A) (P : A -> Prop) :
  (forall x, P x -> P (f x)) -> forall p x, P x -> P (SpecFloat.iter_pos f p x).
Proof.
  intros Hf. induction p as [p IH|p IH|]; simpl; intros x Hx; auto.
Qed.

Lemma shr_fexp_nonneg (m e : Z) (l : location) :
  (0 <= m)%Z -> (0 <= shr_m (fst (shr_fexp prec emax m e l)))%Z.
Proof.
  intros Hm. unfold shr_fexp, shr.
  assert (H0 : (0 <= shr_m (shr_record_of_loc m l))%Z)
    by (destruct l as [|[]]; exact Hm).
  destruct (fexp prec emax (Zdigits2 m + e) - e)%Z; simpl; try exact H0.
  apply (iter_pos_invariant shr_1 (fun mrs => (0 <= shr_m mrs)%Z) shr_1_nonneg), H0.
Qed.

Lemma round_nearest_even_nonneg (mx : Z) (lx : location) :
  (0 <= mx)%Z -> (0 <= round_nearest_even mx lx)%Z.
Proof.
  intros H. destruct lx as [|[]]; simpl; try destruct (Z.even mx); lia.
Qed.

(** Rounding a non-negative mantissa never gives NaN. *)
Lemma binary_round_aux_not_nan (sx : bool) (mx ex : Z) (lx : location) :
  (0 <= mx)%Z -> binary_round_aux prec emax sx mx ex lx <> S754_nan.
Proof.
  intros Hm. unfold binary_round_aux.
  pose proof (shr_fexp_nonneg mx ex lx Hm) as H1.
  destruct (shr_fexp prec emax mx ex lx) as [mrs' e']. simpl in H1.
  pose proof (shr_fexp_nonneg _ e' loc_Exact
                (round_nearest_even_nonneg _ (loc_of_shr_record mrs') H1)) as H2.
  destruct (shr_fexp prec emax _ e' loc_Exact) as [mrs'' e'']. simpl in H2.
  destruct (shr_m mrs'') as [|m|m]; [discriminate | | lia].
  destruct (Z.leb e'' (emax - prec)); discriminate.
Qed.

Lemma binary_round_aux_nonneg (mx ex : Z) (lx : location) :
  (0 <= mx)%Z -> SFnonneg (binary_round_aux prec emax false mx ex lx).
Proof.
  intros Hm.
  destruct (binary_round_aux_sign false mx ex lx) as [H | H]; [|exact H].
  exfalso. exact (binary_round_aux_not_nan false mx ex lx Hm H).
Qed.

(** Only NaN times a finite number is NaN. *)
Lemma SFmul_finite_nan (x : spec_float) (s : bool) (m : positive) (e : Z) :
  SF64mul x (S754_finite s m e) = S754_nan -> x = S754_nan.
Proof.
  unfold SF64mul. destruct x as [sx|sx| |sx mx ex]; simpl; try discriminate;
    [reflexivity|].
  intros H. exfalso. revert H. apply binary_round_aux_not_nan. lia.
Qed.

(** The sum of two numbers that are not negative is not negative. *)
Lemma SFadd_nonneg (x y : spec_float) :
  SFnonneg x -> SFnonneg y -> SFnonneg (SF64add x y).
Proof.
  unfold SF64add.
  destruct x as [sx|sx| |sx mx ex], y as [sy|sy| |sy my ey]; simpl;
    try contradiction; intros Hx Hy; subst; simpl; auto.
  - destruct sx, sy; exact I.
  - unfold binary_normalize, binary_round.
    destruct (shl_align (fst (shl_align mx ex (Z.min ex ey))
                         + fst (shl_align my ey (Z.min ex ey)))
                (Z.min ex ey) _) as [mz ez].
    apply binary_round_aux_nonneg. lia.
Qed.

Lemma SFdiv_nonneg (g c : spec_float) :
  SFnonneg g -> SFpos c ->
  SF64div g c = S754_nan \/ SFnonneg (SF64div g c).
Proof.
  unfold SF64div.
  destruct g as [sg|sg| |sg mg eg], c as [sc|sc| |sc mc ec]; simpl;
    try contradiction; intros Hg Hc; subst; simpl; auto.
  destruct (SFdiv_core_binary prec emax (Z.pos mg) eg (Z.pos mc) ec) as [[mz ez] lz].
  apply (binary_round_aux_sign false).
Qed.

Lemma SFdiv_nonpos (g c : spec_float) :
  SFnonpos g -> SFpos c ->
  SF64div g c = S754_nan \/ SFnonpos (SF64div g c).
Proof.
  unfold SF64div.
  destruct g as [sg|sg| |sg mg eg], c as [sc|sc| |sc mc ec]; simpl;
    try contradiction; intros Hg Hc; subst; simpl; auto.
  destruct (SFdiv_core_binary prec emax (Z.pos mg) eg (Z.pos mc) ec) as [[mz ez] lz].
  apply (binary_round_aux_sign true).
Qed.

Lemma SFmul_nonneg (x y : spec_float) :
  SFnonneg x -> SFpos y ->
  SF64mul x y = S754_nan \/ SFnonneg (SF64mul x y).
Proof.
  unfold SF64mul.
  destruct x as [sx|sx| |sx mx ex], y as [sy|sy| |sy my ey]; simpl;
    try contradiction; intros Hx Hy; subst; simpl; auto.
  apply (binary_round_aux_sign false).
Qed.

Lemma SFmul_nonpos (x y : spec_float) :
  SFnonpos x -> SFpos y ->
  SF64mul x y = S754_nan \/ SFnonpos (SF64mul x y).
Proof.
  unfold SF64mul.
  destruct x as [sx|sx| |sx mx ex], y as [sy|sy| |sy my ey]; simpl;
    try contradiction; intros Hx Hy; subst; simpl; auto.
  apply (binary_round_aux_sign true).
Qed.

Lemma SFmul_nan_l (y : spec_float) : SF64mul S754_nan y = S754_nan.
Proof. reflexivity. Qed.

Lemma Prim2SF_nan (x : float) : Prim2SF x = S754_nan <-> x = nan.
Proof.
  split; [intros H | intros ->; reflexivity].
  apply Prim2SF_inj. rewrite H. reflexivity.
Qed.

Lemma SFeqb_refl (x : spec_float) : x <> S754_nan -> SFeqb x x = true.
Proof.
  unfold SFeqb, SFcompare.
  destruct x as [s|[|]| |[|] m e]; simpl; intros H; try reflexivity; try contradiction.
  - rewrite Z.compare_refl, Pos.compare_cont_refl. reflexivity.
  - rewrite Z.compare_refl, Pos.compare_cont_refl. reflexivity.
Qed.

(** [is_nan] holds of NaN only. *)
Lemma is_nan_spec (x : float) : is_nan x = true <-> x = nan.
Proof.
  unfold is_nan. rewrite FloatAxioms.eqb_spec, <- Prim2SF_nan. split.
  - intros H. destruct (Prim2SF x) eqn:E; try reflexivity;
      rewrite SFeqb_refl in H by discriminate; discriminate.
  - intros ->. reflexivity.
Qed.

Lemma pos_100 : SFpos (Prim2SF 100).
Proof. vm_compute. reflexivity. Qed.

Lemma pos_3 : SFpos (Prim2SF 3).
Proof. vm_compute. reflexivity. Qed.

End Binary64Order.

(** ** PortfolioTracker: the total, the bar and the rows *)

Section PortfolioDisplay.

Import PortfolioTracker.

(** X1: the total of no holdings is 0, and a holding added at the end of
    the list adds its own gain/loss to the total, in any arithmetic. *)
Theorem totalGainLoss_snoc {num : Type} `{Arith num}
    (hs : list (Holding num)) (h : Holding num) :
  totalGainLoss (@nil (Holding num)) = of_Z 0 /\
  totalGainLoss (hs ++ [h]) = (totalGainLoss hs + gainLoss h)%num.
Proof.
  split; [reflexivity|].
  unfold totalGainLoss. rewrite fold_left_app. reflexivity.
Qed.

Lemma Math_min_100 (y : float) :
  Math_min [100%float; y]
  = if is_nan y then nan else if (y <? 100)%float then y else 100%float.
Proof.
  unfold Math_min. cbn [min_loop].
  change (is_nan 100) with false.
  change (PrimFloat.Leibniz.eqb 100 (-0)) with false.
  change (100 <? infinity)%float with true.
  change (PrimFloat.Leibniz.eqb 100 0) with false.
  cbn [andb]. rewrite andb_false_r. reflexivity.
Qed.

Lemma abs_times_3_nonneg (p : float) :
  (abs p * 3)%float = nan \/ (0 <=? abs p * 3)%float = true.
Proof.
  rewrite leb_zero_nonneg, <- Prim2SF_nan, mul_spec, abs_spec.
  destruct (Prim2SF p) as [s|s| |s m e] eqn:E; simpl SFabs.
  - apply SFmul_nonneg; [exact I | exact pos_3].
  - apply SFmul_nonneg; [reflexivity | exact pos_3].
  - left. reflexivity.
  - apply SFmul_nonneg; [reflexivity | exact pos_3].
Qed.

Lemma abs_times_3_nan (p : float) : (abs p * 3)%float = nan -> p = nan.
Proof.
  rewrite <- !Prim2SF_nan, mul_spec, abs_spec.
  assert (H3 : exists m e, Prim2SF 3 = S754_finite false m e).
  { eexists _, _. vm_compute. reflexivity. }
  destruct H3 as [m [e ->]]. intros H. apply SFmul_finite_nan in H.
  destruct (Prim2SF p); simpl in H; (discriminate H || reflexivity).
Qed.

(** X2: the width of the gain/loss bar is NaN exactly when the total
    percentage is NaN; otherwise it lies between 0 and 100, and it is 100
    when the total percentage is infinite (a division by zero). *)
Theorem barWidth_range (st : State float) :
  (barWidth st = nan <-> totalGainLossPercent st = nan) /\
  (totalGainLossPercent st <> nan ->
   (0 <=? barWidth st)%float = true /\ (barWidth st <=? 100)%float = true) /\
  (totalGainLossPercent st = infinity \/ totalGainLossPercent st = neg_infinity ->
   barWidth st = 100%float).
Proof.
  unfold barWidth. rewrite Math_min_100.
  set (p := totalGainLossPercent st).
  assert (Hcases : (abs p * 3)%float = nan /\ p = nan \/
                   is_nan (abs p * 3) = false /\ (0 <=? abs p * 3)%float = true
                   /\ p <> nan).
  { destruct (is_nan (abs p * 3)) eqn:Hnan.
    - left. apply is_nan_spec in Hnan. split; [exact Hnan | apply abs_times_3_nan, Hnan].
    - right. split; [reflexivity|].
      destruct (abs_times_3_nonneg p) as [Hy | Hy].
      + apply is_nan_spec in Hy. congruence.
      + split; [exact Hy|]. intros ->. discriminate Hnan. }
  split; [|split].
  - destruct Hcases as [[Hy Hp] | (Hnn & Hy & Hp)].
    + rewrite Hy. simpl. tauto.
    + rewrite Hnn. split; [|contradiction].
      destruct (abs p * 3 <? 100)%float; intros H.
      * apply is_nan_spec in H. congruence.
      * apply (f_equal is_nan) in H. discriminate H.
  - intros Hp. destruct Hcases as [[_ Hp'] | (Hnn & Hy & _)]; [contradiction|].
    rewrite Hnn. destruct (abs p * 3 <? 100)%float eqn:Hlt.
    + split; [exact Hy | apply ltb_leb, Hlt].
    + split; reflexivity.
  - intros [-> | ->]; reflexivity.
Qed.

Lemma barWidth_range_witness :
  barWidth allGainPortfolio = 100%float /\
  ((0 <=? barWidth initialState)%float = true /\
   (barWidth initialState <=? 100)%float = true).
Proof.
  split.
  - apply (proj2 (proj2 (barWidth_range allGainPortfolio))). left. reflexivity.
  - apply (proj1 (proj2 (barWidth_range initialState))).
    apply float_neq. vm_compute. reflexivity.
Defined.

Lemma percent_sign (g c : float) :
  (0 <? c)%float = true ->
  ((0 <=? g)%float = true ->
   (g / c * 100)%float = nan \/ (0 <=? g / c * 100)%float = true) /\
  ((0 <=? g)%float = false ->
   (g / c * 100)%float = nan \/ (g / c * 100 <=? 0)%float = true).
Proof.
  intros Hc. apply ltb_zero_pos in Hc. split; intros Hg.
  - apply leb_zero_nonneg in Hg.
    rewrite leb_zero_nonneg, <- Prim2SF_nan, mul_spec, div_spec.
    destruct (SFdiv_nonneg _ _ Hg Hc) as [-> | Hq]; [left; reflexivity|].
    apply SFmul_nonneg; [exact Hq | exact pos_100].
  - apply leb_zero_false in Hg.
    rewrite leb_nonpos_zero, <- Prim2SF_nan, mul_spec, div_spec.
    destruct Hg as [-> | [Hg _]]; [left; reflexivity|].
    destruct (SFdiv_nonpos _ _ Hg Hc) as [-> | Hq]; [left; reflexivity|].
    apply SFmul_nonpos; [exact Hq | exact pos_100].
Qed.

(** X3: for a holding with a positive cost basis the prefix and colour of
    the row, which are chosen from gainLoss, agree with the sign of the
    percentage printed after them: after "+" (green) the percentage is not
    negative, and without it (red) the percentage is not positive; in both
    cases it may be NaN. *)
Theorem row_sign_agrees (h : Holding float) :
  (0 <? costBasis h)%float = true ->
  (rowPrefix h = js "+" ->
   rowColor h = js "text-green-600" /\
   (gainLossPercent h = nan \/ (0 <=? gainLossPercent h)%float = true)) /\
  (rowPrefix h = [] ->
   rowColor h = js "text-red-600" /\
   (gainLossPercent h = nan \/ (gainLossPercent h <=? 0)%float = true)).
Proof.
  intros Hc. rewrite gainLossPercent_eq.
  destruct (percent_sign (gainLoss h) (costBasis h) Hc) as [Hpos Hneg].
  unfold rowPrefix, rowColor, signPrefix, signColor.
  destruct (0 <=? gainLoss h)%float eqn:Hg; split; intros Hp; try discriminate Hp.
  - split; [reflexivity | apply Hpos; reflexivity].
  - split; [reflexivity | apply Hneg; reflexivity].
Qed.

Lemma row_sign_agrees_witness :
  rowColor aapl = js "text-green-600" /\
  (gainLossPercent aapl = nan \/ (0 <=? gainLossPercent aapl)%float = true).
Proof.
  apply (proj1 (row_sign_agrees aapl ltac:(reflexivity))). reflexivity.
Defined.

Lemma charAt_0 (s : jsstring) :
  charAt s 0 ++ drop 1 s = s /\ (charAt s 0 = [] <-> s = []).
Proof.
  destruct s as [|c s]; simpl; split; try reflexivity; split; (reflexivity || discriminate).
Qed.

(** X4: the letter in the icon of a holding is the first code unit of its
    symbol, so that the letter followed by the rest of the symbol is the
    symbol; for an empty symbol the letter is the empty string. *)
Theorem iconLetter_prefix (h : Holding float) :
  iconLetter h ++ drop 1 (symbol h) = symbol h /\
  (length (iconLetter h) <= 1)%nat /\
  (iconLetter h = [] <-> symbol h = []).
Proof.
  unfold iconLetter. destruct (charAt_0 (symbol h)) as [Happ Hnil].
  split; [exact Happ|]. split; [|exact Hnil].
  unfold charAt. destruct (nth_error (symbol h) 0); simpl; lia.
Qed.

Lemma signColor_green (x : float) :
  signColor x = js "text-green-600" <-> (0 <=? x)%float = true.
Proof.
  unfold signColor. destruct (0 <=? x)%float; split; (reflexivity || discriminate).
Qed.

Lemma fold_nonneg (hs : list (Holding float)) (acc : float) :
  (0 <=? acc)%float = true ->
  Forall (fun h => (0 <=? gainLoss h)%float = true) hs ->
  (0 <=? fold_left
           (fun sum holding =>
              sum + (quantity holding * currentPrice holding
                     - quantity holding * averageCost holding)) hs acc)%float = true.
Proof.
  revert acc. induction hs as [|h hs IH]; intros acc Hacc Hall; [exact Hacc|].
  apply Forall_cons in Hall as [Hh Hall]. simpl. apply IH; [|exact Hall].
  apply leb_zero_nonneg. rewrite add_spec.
  apply SFadd_nonneg; apply leb_zero_nonneg; assumption.
Qed.

(** X5: when every row of the holdings table is green (no holding shows a
    loss), the total is green as well and carries the "+" prefix; so it is
    for an empty table. *)
Theorem green_rows_green_total (st : State float) :
  Forall (fun h => rowColor h = js "text-green-600") (holdings st) ->
  totalColor st = js "text-green-600" /\ totalPrefix st = js "+".
Proof.
  intros Hall.
  assert (H : (0 <=? totalGainLoss (holdings st))%float = true).
  { apply (fold_nonneg (holdings st) 0%float); [reflexivity|].
    eapply Forall_impl; [exact Hall|].
    intros h Hh. apply signColor_green. exact Hh. }
  unfold totalColor, totalPrefix, signColor, signPrefix. rewrite H. split; reflexivity.
Qed.

Lemma green_rows_green_total_witness :
  totalColor initialState = js "text-green-600" /\ totalPrefix initialState = js "+".
Proof.
  apply green_rows_green_total. repeat constructor.
Defined.

End PortfolioDisplay.

(** ** StrategyBuilder: sequences of actions and the strategy cards *)

Section StrategyRuns.

Import StrategyBuilder.

Lemma blank_dec (s : jsstring) :
  not_ (trim s) = true /\ Forall (fun c => isWhiteSpace c = true) s \/
  not_ (trim s) = false /\ Exists (fun c => isWhiteSpace c = false) s.
Proof.
  destruct (not_ (trim s)) eqn:H.
  - left. split; [reflexivity | apply not_trim_true_iff, H].
  - right. split; [reflexivity|].
    induction s as [|c s IH].
    + discriminate H.
    + destruct (isWhiteSpace c) eqn:Hc; [|left; exact Hc].
      right. apply IH.
      destruct (not_ (trim s)) eqn:Hs; [|reflexivity].
      apply not_trim_true_iff in Hs.
      assert (Hall : Forall (fun c => isWhiteSpace c = true) (c :: s))
        by (constructor; assumption).
      apply not_trim_true_iff in Hall. rewrite Hall in H. discriminate H.
Qed.

(** X6: Create leaves the strategy list as it is exactly when the name in
    the form consists of white space only (the empty name included);
    otherwise the list grows by one. *)
Theorem create_rejected_iff_blank (now : N) (st : State) :
  (strategies (handleCreateStrategy now st) = strategies st
   <-> Forall (fun c => isWhiteSpace c = true) (NewStrategy.name (newStrategy st))) /\
  (strategyCount (handleCreateStrategy now st) = strategyCount st \/
   strategyCount (handleCreateStrategy now st) = S (strategyCount st)).
Proof.
  unfold strategyCount.
  destruct (blank_dec (NewStrategy.name (newStrategy st))) as [[Hb Hall] | [Hb Hex]].
  - unfold handleCreateStrategy. rewrite Hb. split; [tauto | left; reflexivity].
  - rewrite (handleCreateStrategy_accepts now st Hb). simpl. split; [|right; reflexivity].
    split.
    + intros H. apply (f_equal length) in H. simpl in H. lia.
    + intros Hall. apply not_trim_true_iff in Hall. congruence.
Qed.

Lemma create_rejected_iff_blank_witness :
  strategies (handleCreateStrategy 1700000000000 (changeName (js " ") initialState))
  = strategies (changeName (js " ") initialState).
Proof.
  apply (proj1 (create_rejected_iff_blank 1700000000000 (changeName (js " ") initialState))).
  repeat constructor.
Defined.

(** X7: a second click on Create right after the first changes nothing:
    an accepted click clears the form, so the next one is rejected; at most
    one strategy comes from any number of clicks without typing between
    them. *)
Theorem double_click_creates_once (t1 t2 : N) (st : State) :
  handleCreateStrategy t2 (handleCreateStrategy t1 st) = handleCreateStrategy t1 st.
Proof.
  unfold handleCreateStrategy at 2 3.
  destruct (not_ (trim (NewStrategy.name (newStrategy st)))) eqn:H.
  - unfold handleCreateStrategy. rewrite H. reflexivity.
  - reflexivity.
Qed.

Lemma map_fmap {A B : Type} (f : A -> B) (l : list A) : List.map f l = f <$> l.
Proof. induction l as [|a l IH]; [reflexivity|]. csimpl. rewrite <- IH. reflexivity. Qed.

Lemma run_created (actions : list Action) (st : State) :
  exists created,
    strategies (run st actions) = created ++ strategies st /\
    Forall freshlyCreated created /\
    List.map id created `sublist_of` reverse (List.map toString (clicks actions)).
Proof.
  unfold run. revert st.
  induction actions as [|a actions IH]; intros st.
  { exists []. repeat split; [constructor | apply sublist_nil_l]. }
  destruct (IH (step st a)) as (created & Heq & Hfresh & Hsub). simpl fold_left.
  destruct a as [v|v|v|now]; try (exists created; repeat split; assumption).
  simpl clicks. simpl List.map. rewrite reverse_cons. simpl step in *.
  destruct (blank_dec (NewStrategy.name (newStrategy st))) as [[Hb Hall] | [Hb Hex]].
  - assert (Hstep : handleCreateStrategy now st = st)
      by (unfold handleCreateStrategy; rewrite Hb; reflexivity).
    rewrite Hstep in *.
    exists created. repeat split; [exact Heq | exact Hfresh |].
    apply sublist_inserts_r, Hsub.
  - rewrite Heq, (handleCreateStrategy_accepts now st Hb). simpl strategies.
    eexists (created ++ [_]). split; [|split].
    + rewrite <- app_assoc. reflexivity.
    + apply Forall_app. split; [exact Hfresh|].
      repeat constructor. exact Hex.
    + rewrite List.map_app. simpl. apply sublist_app; [exact Hsub | reflexivity].
Qed.

(** X8: whatever the user does, the strategies already in the list stay as
    they are, at the end of the list and in their order; the strategies put
    in front of them, at most one per click on Create, all have the three
    metrics 0, status backtesting and a name with a character that is not
    white space. *)
Theorem run_keeps_and_creates (st : State) (actions : list Action) :
  exists created,
    strategies (run st actions) = created ++ strategies st /\
    (length created <= length (clicks actions))%nat /\
    Forall freshlyCreated created.
Proof.
  destruct (run_created actions st) as (created & Heq & Hfresh & Hsub).
  exists created. repeat split; try assumption.
  apply sublist_length in Hsub.
  rewrite length_reverse, !length_map in Hsub. exact Hsub.
Qed.

Lemma NoDup_toString (ts : list N) :
  NoDup ts -> NoDup (reverse (List.map toString ts)).
Proof.
  intros H. rewrite reverse_Permutation, map_fmap.
  apply NoDup_fmap_2; [|exact H].
  intros n m. apply toString_inj.
Qed.

(** X9: when the ids in the list are distinct, the clicks on Create happen
    at distinct timestamps and no timestamp prints as an id already in the
    list, the ids are still distinct after any sequence of actions. *)
Theorem distinct_timestamps_keep_ids_unique (st : State) (actions : list Action) :
  NoDup (List.map id (strategies st)) ->
  NoDup (clicks actions) ->
  (forall now, now ∈ clicks actions -> toString now ∉ List.map id (strategies st)) ->
  NoDup (List.map id (strategies (run st actions))).
Proof.
  intros Hids Hclicks Hnew.
  destruct (run_created actions st) as (created & Heq & _ & Hsub).
  rewrite Heq, List.map_app. apply NoDup_app. split; [|split].
  - apply (sublist_NoDup _ _ (NoDup_toString _ Hclicks) Hsub).
  - intros x Hx Hold.
    assert (Hx' := elem_of_sublist _ _ _ Hx Hsub).
    rewrite elem_of_reverse, map_fmap in Hx'.
    apply list_elem_of_fmap in Hx' as (now & -> & Hnow).
    exact (Hnew now Hnow Hold).
  - exact Hids.
Qed.

Lemma distinct_timestamps_keep_ids_unique_witness :
  NoDup (List.map id (strategies
    (run initialState
       [ChangeName (js "X"); ClickCreate 1700000000000;
        ChangeName (js "Y"); ClickCreate 1700000000001]))).
Proof.
  apply distinct_timestamps_keep_ids_unique.
  - repeat (constructor; [intros H; repeat (apply elem_of_cons in H as [H|H];
                                          [discriminate H|]); inversion H|]).
    constructor.
  - repeat (constructor; [intros H; repeat (apply elem_of_cons in H as [H|H];
                                          [discriminate H|]); inversion H|]).
    constructor.
  - intros now Hnow H.
    repeat (apply elem_of_cons in Hnow as [-> | Hnow];
            [repeat (apply elem_of_cons in H as [H|H]; [discriminate H|]); inversion H|]).
    inversion Hnow.
Defined.

Lemma run_default_assetClass (actions : list Action) (st : State) :
  forallb keepsAssetClass actions = true ->
  NewStrategy.assetClass (newStrategy st) = equities ->
  exists created,
    strategies (run st actions) = created ++ strategies st /\
    Forall (fun s => assetClass s = equities) created.
Proof.
  unfold run. revert st.
  induction actions as [|a actions IH]; intros st Hk Hst.
  { exists []. split; [reflexivity | constructor]. }
  simpl in Hk. apply andb_prop in Hk as [Ha Hk]. simpl fold_left.
  destruct a as [v|v|v|now]; simpl in Ha; try discriminate Ha.
  1, 2: match goal with
        | |- context [step ?s ?a] =>
            destruct (IH (step s a) Hk Hst) as (created & Heq & Hall)
        end; exists created; split; assumption.
  simpl step.
  destruct (blank_dec (NewStrategy.name (newStrategy st))) as [[Hb _] | [Hb _]].
  - assert (Hstep : handleCreateStrategy now st = st)
      by (unfold handleCreateStrategy; rewrite Hb; reflexivity).
    rewrite Hstep. apply (IH _ Hk Hst).
  - destruct (IH (handleCreateStrategy now st) Hk) as (created & Heq & Hall).
    { rewrite (handleCreateStrategy_accepts now st Hb). reflexivity. }
    rewrite Heq, (handleCreateStrategy_accepts now st Hb). simpl strategies.
    eexists (created ++ [_]). split; [rewrite <- app_assoc; reflexivity|].
    apply Forall_app. split; [exact Hall|]. repeat constructor. exact Hst.
Qed.

(** X10: as long as the user does not touch the asset-class selector, every
    strategy created from a form that holds equities (the initial form
    does) has asset class equities. *)
Theorem created_default_equities (st : State) (actions : list Action) :
  forallb keepsAssetClass actions = true ->
  NewStrategy.assetClass (newStrategy st) = equities ->
  exists created,
    strategies (run st actions) = created ++ strategies st /\
    Forall (fun s => assetClass s = equities) created.
Proof. intros Hk Hst. exact (run_default_assetClass actions st Hk Hst). Qed.

Lemma created_default_equities_witness :
  exists created,
    strategies (run initialState (createTwice 1700000000000))
    = created ++ strategies initialState /\
    Forall (fun s => assetClass s = equities) created.
Proof.
  apply created_default_equities; reflexivity.
Defined.

Lemma three_colors_monotone (hi lo a b : float) (g y r : jsstring) :
  (lo <=? hi)%float = true -> g <> y -> g <> r -> y <> r ->
  (a <=? b)%float = true ->
  let color x := if (hi <=? x)%float then g else if (lo <=? x)%float then y else r in
  (color a = g -> color b = g) /\ (color b = r -> color a = r).
Proof.
  intros Hlh Hgy Hgr Hyr Hab color. unfold color. split.
  - destruct (hi <=? a)%float eqn:Ha.
    + intros _. rewrite (leb_trans hi a b Ha Hab). reflexivity.
    + destruct (lo <=? a)%float; intros H; congruence.
  - destruct (hi <=? b)%float eqn:Hb; [intros H; congruence|].
    destruct (lo <=? b)%float eqn:Hb'; [intros H; congruence|]. intros _.
    destruct (lo <=? a)%float eqn:Ha'.
    { rewrite (leb_trans lo a b Ha' Hab) in Hb'. discriminate. }
    destruct (hi <=? a)%float eqn:Ha; [|reflexivity].
    rewrite (leb_trans lo hi a Hlh Ha) in Ha'. discriminate.
Qed.

(** X11: the colours of the three metrics are monotone: when a metric is
    not smaller than another, it is green whenever the other is, and the
    other is red whenever it is. NaN is red. *)
Theorem metric_colors_monotone (a b : float) :
  (a <=? b)%float = true ->
  ((sharpeColor a = js "text-green-600" -> sharpeColor b = js "text-green-600") /\
   (sharpeColor b = js "text-red-600" -> sharpeColor a = js "text-red-600")) /\
  ((returnColor a = js "text-green-600" -> returnColor b = js "text-green-600") /\
   (returnColor b = js "text-red-600" -> returnColor a = js "text-red-600")) /\
  ((drawdownColor a = js "text-green-600" -> drawdownColor b = js "text-green-600") /\
   (drawdownColor b = js "text-red-600" -> drawdownColor a = js "text-red-600")) /\
  (sharpeColor nan = js "text-red-600" /\ returnColor nan = js "text-red-600"
   /\ drawdownColor nan = js "text-red-600").
Proof.
  intros Hab.
  assert (Hgy : js "text-green-600" <> js "text-yellow-600") by discriminate.
  assert (Hgr : js "text-green-600" <> js "text-red-600") by discriminate.
  assert (Hyr : js "text-yellow-600" <> js "text-red-600") by discriminate.
  split; [|split; [|split]].
  - apply (three_colors_monotone 2 1 a b); auto.
  - apply (three_colors_monotone 20 0 a b); auto.
  - apply (three_colors_monotone (-10) (-20) a b); auto.
  - repeat split.
Qed.

Lemma metric_colors_monotone_witness :
  sharpeColor 3.2 = js "text-green-600" /\ drawdownColor (-25.3) = js "text-red-600".
Proof.
  split.
  - apply (proj1 (proj1 (metric_colors_monotone 2.1 3.2 ltac:(reflexivity)))).
    reflexivity.
  - apply (proj2 (proj1 (proj2 (proj2
             (metric_colors_monotone (-25.3) (-20.5) ltac:(reflexivity)))))).
    reflexivity.
Defined.

(** X12: a strategy that has just been created is shown with a red Sharpe
    ratio, a yellow return and a green drawdown. *)
Theorem new_strategy_colors (now : N) (st : State) :
  not_ (trim (NewStrategy.name (newStrategy st))) = false ->
  exists s,
    strategies (handleCreateStrategy now st) = s :: strategies st /\
    sharpeColor (sharpeRatio s) = js "text-red-600" /\
    returnColor (totalReturn s) = js "text-yellow-600" /\
    drawdownColor (maxDrawdown s) = js "text-green-600" /\
    getStatusColor (status s) = getStatusColor backtesting.
Proof.
  intros H. rewrite (handleCreateStrategy_accepts now st H).
  eexists. split; [reflexivity|]. repeat split.
Qed.

Lemma new_strategy_colors_witness :
  exists s,
    strategies (handleCreateStrategy 1700000000000 (changeName (js "X") initialState))
    = s :: strategies (changeName (js "X") initialState) /\
    sharpeColor (sharpeRatio s) = js "text-red-600" /\
    returnColor (totalReturn s) = js "text-yellow-600" /\
    drawdownColor (maxDrawdown s) = js "text-green-600" /\
    getStatusColor (status s) = getStatusColor backtesting.
Proof.
  apply new_strategy_colors. reflexivity.
Defined.

(** X13: different asset classes have different badge colours, and so do
    different statuses. *)
Theorem badge_colors_injective :
  (forall a b, getAssetClassColor a = getAssetClassColor b -> a = b) /\
  (forall a b, getStatusColor a = getStatusColor b -> a = b).
Proof.
  split; intros [] [] H; try reflexivity; vm_compute in H; discriminate H.
Qed.

Lemma badge_colors_injective_witness :
  crypto = crypto /\ paused = paused.
Proof.
  split.
  - apply (proj1 badge_colors_injective). reflexivity.
  - apply (proj2 badge_colors_injective). reflexivity.
Defined.

End StrategyRuns.

(** ** EconomicCalendar: the header count, the groups and the badges *)

Section CalendarDisplay.

Import EconomicCalendar.
Local Open Scope Z_scope.

Lemma tagged_iff (i : Z) : i <= 5 -> (importanceTag i <> [] <-> i >= 4).
Proof.
  intros Hi. unfold importanceTag.
  destruct (Z.eqb_spec i 5) as [->|H5]; [split; [lia | discriminate]|].
  destruct (Z.eqb_spec i 4) as [->|H4]; [split; [lia | discriminate]|].
  split; [contradiction | lia].
Qed.

(** X14: when no importance is above 5, the number of high impact events in
    the header is the number of cards shown with a fire or warning tag. *)
Theorem highImpactCount_tagged (st : State) :
  Forall (fun event => importance event <= 5) (events st) ->
  highImpactCount st = length (taggedCards (render st)).
Proof.
  unfold highImpactCount, taggedCards, render, displayedEvents, highImpactEvents.
  induction (events st) as [|e l IH]; intros Hall; [reflexivity|].
  apply Forall_cons in Hall as [He Hl]. simpl List.map.
  rewrite !filter_cons.
  pose proof (tagged_iff (importance e) He) as Htag.
  change (badgeTag (renderEvent e)) with (importanceTag (importance e)).
  repeat case_decide; simpl; rewrite ?(IH Hl); try reflexivity; tauto.
Qed.

Lemma highImpactCount_tagged_witness :
  highImpactCount initialState = length (taggedCards (render initialState)).
Proof.
  apply highImpactCount_tagged.
  unfold initialState, initialEvents. simpl. repeat constructor; simpl; lia.
Defined.

Lemma filter_filter_keep {A : Type} (P Q : A -> Prop)
    `{!forall x, Decision (P x)} `{!forall x, Decision (Q x)} (l : list A) :
  (forall x, P x -> Q x) -> filter Q (filter P l) = filter P l.
Proof.
  intros HPQ. induction l as [|x l IH]; [reflexivity|].
  rewrite (filter_cons P). case_decide; [|exact IH].
  rewrite filter_cons. case_decide; [rewrite IH; reflexivity|].
  exfalso. auto.
Qed.

Lemma filter_filter_none {A : Type} (P Q : A -> Prop)
    `{!forall x, Decision (P x)} `{!forall x, Decision (Q x)} (l : list A) :
  (forall x, P x -> ~ Q x) -> filter Q (filter P l) = [].
Proof.
  intros HPQ. induction l as [|x l IH]; [reflexivity|].
  rewrite (filter_cons P). case_decide; [|exact IH].
  rewrite filter_cons. case_decide; [|exact IH].
  exfalso. eapply HPQ; eassumption.
Qed.

(** X15: grouping a group again gives the same group, grouping it by
    another tier gives nothing, and the groups of two lists put together
    are the groups of each put together. *)
Theorem impact_groups_compose (l1 l2 : list EconomicEvent) :
  (highImpactEvents (highImpactEvents l1) = highImpactEvents l1 /\
   mediumImpactEvents (mediumImpactEvents l1) = mediumImpactEvents l1 /\
   lowImpactEvents (lowImpactEvents l1) = lowImpactEvents l1) /\
  (mediumImpactEvents (highImpactEvents l1) = [] /\
   lowImpactEvents (highImpactEvents l1) = [] /\
   highImpactEvents (mediumImpactEvents l1) = [] /\
   lowImpactEvents (mediumImpactEvents l1) = [] /\
   highImpactEvents (lowImpactEvents l1) = [] /\
   mediumImpactEvents (lowImpactEvents l1) = []) /\
  (highImpactEvents (l1 ++ l2) = highImpactEvents l1 ++ highImpactEvents l2 /\
   mediumImpactEvents (l1 ++ l2) = mediumImpactEvents l1 ++ mediumImpactEvents l2 /\
   lowImpactEvents (l1 ++ l2) = lowImpactEvents l1 ++ lowImpactEvents l2).
Proof.
  unfold highImpactEvents, mediumImpactEvents, lowImpactEvents.
  split; [|split].
  - repeat split; apply filter_filter_keep; auto.
  - repeat split; apply filter_filter_none; intros x; lia.
  - repeat split; apply filter_app.
Qed.

(** X16: on the scale 1..5 every importance has its own badge colour, and
    the three surprises have three different icons and three different
    colours. *)
Theorem calendar_colors_injective :
  (forall i j, 1 <= i <= 5 -> 1 <= j <= 5 ->
     getImportanceColor i = getImportanceColor j -> i = j) /\
  (forall a b, getSurpriseIcon a = getSurpriseIcon b -> a = b) /\
  (forall a b, getSurpriseColor a = getSurpriseColor b -> a = b).
Proof.
  split; [|split].
  - intros i j Hi Hj H.
    assert (Ei : i = 1 \/ i = 2 \/ i = 3 \/ i = 4 \/ i = 5) by lia.
    assert (Ej : j = 1 \/ j = 2 \/ j = 3 \/ j = 4 \/ j = 5) by lia.
    destruct Ei as [-> | [-> | [-> | [-> | ->]]]];
      destruct Ej as [-> | [-> | [-> | [-> | ->]]]];
      try reflexivity; vm_compute in H; discriminate H.
  - intros [] [] H; try reflexivity; discriminate H.
  - intros [] [] H; try reflexivity; vm_compute in H; discriminate H.
Qed.

Lemma calendar_colors_injective_witness :
  (3 = 3) /\ positive = positive.
Proof.
  split.
  - apply (proj1 calendar_colors_injective 3 3); [lia | lia | reflexivity].
  - apply (proj1 (proj2 calendar_colors_injective)). reflexivity.
Defined.

Lemma getImportanceColor_cases (i : Z) :
  i = 5 \/ i = 4 \/ i = 3 \/ i = 2 \/ getImportanceColor i = defaultColor.
Proof.
  destruct (decide (i = 5)); [tauto|]. destruct (decide (i = 4)); [tauto|].
  destruct (decide (i = 3)); [tauto|]. destruct (decide (i = 2)); [tauto|].
  right; right; right; right. apply getImportanceColor_default; assumption.
Qed.

(** X17: on every card the badge and its tag go together, and so do the
    colour of the actual value and the arrow beside it: the fire tag is on
    the red badge and nowhere else, the warning tag on the orange badge and
    nowhere else, whatever the importance is; the up arrow comes with green,
    the down arrow with red and the right arrow with gray. *)
Theorem card_badges_agree (st : State) (card : EventCard) :
  card ∈ render st ->
  (badgeTag card = importanceTag 5 <-> badgeColor card = getImportanceColor 5) /\
  (badgeTag card = importanceTag 4 <-> badgeColor card = getImportanceColor 4) /\
  (actualIcon card = getSurpriseIcon positive
   <-> actualColor card = getSurpriseColor positive) /\
  (actualIcon card = getSurpriseIcon negative
   <-> actualColor card = getSurpriseColor negative) /\
  (actualIcon card = getSurpriseIcon neutral
   <-> actualColor card = getSurpriseColor neutral).
Proof.
  unfold render. rewrite map_fmap. intros Hin.
  apply list_elem_of_fmap in Hin as (e & -> & _). simpl.
  split; [|split].
  - destruct (getImportanceColor_cases (importance e)) as [-> | [-> | [-> | [-> | Hd]]]];
      try (split; intros H; (reflexivity || discriminate H)).
    rewrite Hd. split; intros H; [|discriminate H].
    unfold importanceTag in H.
    destruct (Z.eqb_spec (importance e) 5) as [E|_];
      [rewrite E in Hd; discriminate Hd|].
    destruct (importance e =? 4); discriminate H.
  - destruct (getImportanceColor_cases (importance e)) as [-> | [-> | [-> | [-> | Hd]]]];
      try (split; intros H; (reflexivity || discriminate H)).
    rewrite Hd. split; intros H; [|discriminate H].
    unfold importanceTag in H.
    destruct (Z.eqb_spec (importance e) 5) as [E|_]; [discriminate H|].
    destruct (Z.eqb_spec (importance e) 4) as [E|_];
      [rewrite E in Hd; discriminate Hd | discriminate H].
  - destruct (surprise e); repeat split; intros H; (reflexivity || discriminate H).
Qed.

Lemma card_badges_agree_witness :
  badgeTag (renderEvent cpi) = importanceTag 5
  <-> badgeColor (renderEvent cpi) = getImportanceColor 5.
Proof.
  apply (card_badges_agree initialState (renderEvent cpi)). left.
Defined.

End CalendarDisplay.
